(** * wolfpack: the node-to-node communication interface

    A shallow embedding of the two snapshots of the logic node's
    communication layer,

    - [src/logic/impl/node-node-interface.go]  (module [Lockstep]: prey
      capture, locked player locations), and
    - [src/unnamed/part_000]                   (module [Acks]: sequence
      numbers, the ACK ledger and the quorum routine [ManageAcks]),

    together with the library functions they call ([crypto/md5],
    [encoding/hex], [strconv]) and the properties of the handlers.

    Conventions.  A Go [string] and a Rocq [string] are both byte sequences.
    A [[]byte] is a [list Byte.byte].  A Go map is a [gmap]; reading a missing
    key gives the zero value, which is written out with [default].  A Go
    [int] is a [Z] whose arithmetic wraps at 64 bits ([wrap_int]).  A pointer
    argument that may be nil is an [option].  A function returns its Go
    result ([nil] or an error) or ends in a run-time panic, paired with the
    state it leaves behind.  A channel is the FIFO list of the values sent
    and not yet received; sending appends (blocking on a full or unbuffered
    channel is not part of the model). *)

From Stdlib Require Import ZArith Lia List Ascii String DecimalString.
From stdpp Require Import base gmap strings list fin_maps option.

Local Open Scope Z_scope.

(* ===================================================================== *)
(** ** Bytes and machine integers *)

Abbreviation bytes := (list Byte.byte).

Definition Z_of_byte (b : Byte.byte) : Z := Z.of_N (Byte.to_N b).

Definition byte_of_Z (z : Z) : Byte.byte :=
  default Byte.x00 (Byte.of_N (Z.to_N (z mod 256))).

Definition bytes_of_string (s : string) : bytes := list_byte_of_string s.
Definition string_of_bytes (b : bytes) : string := string_of_list_byte b.

(** Go's [int] and [int64]: 64-bit two's complement. *)
Definition wrap_int (z : Z) : Z := (z + 2 ^ 63) mod 2 ^ 64 - 2 ^ 63.

(** Go's [uint64]. *)
Definition wrap_uint64 (z : Z) : Z := z mod 2 ^ 64.

(* ===================================================================== *)
(** ** crypto/md5 (RFC 1321) *)

Module MD5.

Definition K : list Z :=
  [ 0xd76aa478; 0xe8c7b756; 0x242070db; 0xc1bdceee;
    0xf57c0faf; 0x4787c62a; 0xa8304613; 0xfd469501;
    0x698098d8; 0x8b44f7af; 0xffff5bb1; 0x895cd7be;
    0x6b901122; 0xfd987193; 0xa679438e; 0x49b40821;
    0xf61e2562; 0xc040b340; 0x265e5a51; 0xe9b6c7aa;
    0xd62f105d; 0x02441453; 0xd8a1e681; 0xe7d3fbc8;
    0x21e1cde6; 0xc33707d6; 0xf4d50d87; 0x455a14ed;
    0xa9e3e905; 0xfcefa3f8; 0x676f02d9; 0x8d2a4c8a;
    0xfffa3942; 0x8771f681; 0x6d9d6122; 0xfde5380c;
    0xa4beea44; 0x4bdecfa9; 0xf6bb4b60; 0xbebfbc70;
    0x289b7ec6; 0xeaa127fa; 0xd4ef3085; 0x04881d05;
    0xd9d4d039; 0xe6db99e5; 0x1fa27cf8; 0xc4ac5665;
    0xf4292244; 0x432aff97; 0xab9423a7; 0xfc93a039;
    0x655b59c3; 0x8f0ccc92; 0xffeff47d; 0x85845dd1;
    0x6fa87e4f; 0xfe2ce6e0; 0xa3014314; 0x4e0811a1;
    0xf7537e82; 0xbd3af235; 0x2ad7d2bb; 0xeb86d391 ].

Definition shifts : list Z :=
  [ 7; 12; 17; 22; 7; 12; 17; 22; 7; 12; 17; 22; 7; 12; 17; 22;
    5;  9; 14; 20; 5;  9; 14; 20; 5;  9; 14; 20; 5;  9; 14; 20;
    4; 11; 16; 23; 4; 11; 16; 23; 4; 11; 16; 23; 4; 11; 16; 23;
    6; 10; 15; 21; 6; 10; 15; 21; 6; 10; 15; 21; 6; 10; 15; 21 ].

Definition w32 (x : Z) : Z := x mod 2 ^ 32.
Definition not32 (x : Z) : Z := Z.lxor x 0xffffffff.
Definition rotl (x c : Z) : Z :=
  w32 (Z.lor (Z.shiftl x c) (Z.shiftr x (32 - c))).

Definition nthZ (l : list Z) (i : Z) : Z := nth (Z.to_nat i) l 0.

(** One of the 64 operations on the state [(a, b, c, d)] with the sixteen
    message words [M]. *)
Definition op (M : list Z) (st : Z * Z * Z * Z) (i : Z) : Z * Z * Z * Z :=
  let '(a, b, c, d) := st in
  let '(f, g) :=
    if i <? 16 then (Z.lor (Z.land b c) (Z.land (not32 b) d), i)
    else if i <? 32 then
      (Z.lor (Z.land d b) (Z.land (not32 d) c), (5 * i + 1) mod 16)
    else if i <? 48 then (Z.lxor b (Z.lxor c d), (3 * i + 5) mod 16)
    else (Z.lxor c (Z.lor b (not32 d)), (7 * i) mod 16) in
  let f' := w32 (f + a + nthZ K i + nthZ M g) in
  (d, w32 (b + rotl f' (nthZ shifts i)), b, c).

(** Little-endian decoding of a word and encoding on [n] bytes. *)
Fixpoint le_word (l : list Z) : Z :=
  match l with
  | [] => 0
  | b :: l' => b + 256 * le_word l'
  end.

Fixpoint le_bytes (n : nat) (x : Z) : list Z :=
  match n with
  | O => []
  | S n' => x mod 256 :: le_bytes n' (x / 256)
  end.

Fixpoint chunks (n : nat) (size : nat) (l : list Z) : list (list Z) :=
  match n with
  | O => []
  | S n' => take size l :: chunks n' size (drop size l)
  end.

Definition block (st : Z * Z * Z * Z) (blk : list Z) : Z * Z * Z * Z :=
  let M := le_word <$> chunks 16 4 blk in
  let '(a, b, c, d) := st in
  let '(a', b', c', d') := fold_left (op M) (seqZ 0 64) st in
  (w32 (a + a'), w32 (b + b'), w32 (c + c'), w32 (d + d')).

Definition pad (msg : list Z) : list Z :=
  let len := Z.of_nat (length msg) in
  msg ++ [0x80] ++ replicate (Z.to_nat ((55 - len) mod 64)) 0
      ++ le_bytes 8 ((8 * len) mod 2 ^ 64).

Definition init : Z * Z * Z * Z :=
  (0x67452301, 0xefcdab89, 0x98badcfe, 0x10325476).

(** [md5.New(); hash.Write(data); hash.Sum(nil)] *)
Definition Sum (data : bytes) : bytes :=
  let p := pad (Z_of_byte <$> data) in
  let '(a, b, c, d) :=
    fold_left block (chunks (length p / 64) 64 p) init in
  byte_of_Z <$> (le_bytes 4 a ++ le_bytes 4 b ++ le_bytes 4 c ++ le_bytes 4 d).

End MD5.

(* ===================================================================== *)
(** ** encoding/hex and strconv *)

Definition hexdigit (z : Z) : ascii :=
  nth (Z.to_nat z) (list_ascii_of_string "0123456789abcdef") "0"%char.

(** [hex.EncodeToString] *)
Fixpoint EncodeToString (b : bytes) : string :=
  match b with
  | [] => EmptyString
  | x :: b' =>
      String (hexdigit (Z_of_byte x / 16))
        (String (hexdigit (Z_of_byte x mod 16)) (EncodeToString b'))
  end.

(** [strconv.AppendInt(dst, i, 10)]: the decimal text of [i], with a leading
    minus sign when negative. *)
Definition AppendInt (dst : bytes) (i : Z) : bytes :=
  dst ++ bytes_of_string (NilZero.string_of_int (Z.to_int i)).

(** The escape of one byte in a double-quoted Go string literal.  The bytes
    of an identifier are ASCII here (["prey"] or a decimal number); a byte
    from 0x80 on is escaped the way [strconv] escapes a byte that is not part
    of a valid UTF-8 sequence. *)
Definition dquote : ascii := ascii_of_N 34.

Definition quote_byte (a : ascii) : string :=
  let n := Z.of_N (N_of_ascii a) in
  if n =? 34 then String "\"%char (String dquote EmptyString)
  else if n =? 92 then "\\"%string
  else if (32 <=? n) && (n <? 127) then String a EmptyString
  else if n =? 7 then "\a"%string
  else if n =? 8 then "\b"%string
  else if n =? 12 then "\f"%string
  else if n =? 10 then "\n"%string
  else if n =? 13 then "\r"%string
  else if n =? 9 then "\t"%string
  else if n =? 11 then "\v"%string
  else String "\"%char (String "x"%char
         (String (hexdigit (n / 16)) (String (hexdigit (n mod 16)) EmptyString))).

Fixpoint quote_body (s : string) : string :=
  match s with
  | EmptyString => EmptyString
  | String a s' => (quote_byte a ++ quote_body s')%string
  end.

(** [strconv.AppendQuote(dst, s)] *)
Definition AppendQuote (dst : bytes) (s : string) : bytes :=
  dst ++ bytes_of_string (String dquote (quote_body s ++ String dquote EmptyString)).

(** Go's conversion [string(i)] of an integer: the UTF-8 encoding of the code
    point [i], or of U+FFFD when [i] is not a valid code point. *)
Definition utf8 (r : Z) : list Z :=
  if (r <? 0) || (0x10FFFF <? r) || ((0xD800 <=? r) && (r <=? 0xDFFF))
  then [0xEF; 0xBF; 0xBD]
  else if r <? 0x80 then [r]
  else if r <? 0x800 then [0xC0 + r / 64; 0x80 + r mod 64]
  else if r <? 0x10000 then
    [0xE0 + r / 4096; 0x80 + (r / 64) mod 64; 0x80 + r mod 64]
  else [0xF0 + r / 262144; 0x80 + (r / 4096) mod 64;
        0x80 + (r / 64) mod 64; 0x80 + r mod 64].

Definition string_of_int (i : Z) : string :=
  string_of_bytes (byte_of_Z <$> utf8 i).

(* ===================================================================== *)
(** ** Types shared by the two snapshots *)

(** [shared.Coord] *)
Record Coord := mkCoord { X : Z; Y : Z }.

(** [shared.MoveCommit]: the fields read by the interface. *)
Record MoveCommit := mkMoveCommit {
  MoveHash : bytes;
  PubKey : string;
  R : string;
  S : string
}.

(** The error types of package [wolferrors], each carrying the value it is
    built from. *)
Inductive error :=
| InvalidMoveError (msg : string)
| OutOfBoundsError (msg : string)
| IncorrectPlayerError (identifier : string)
| UnknownSequenceError (seq : Z)
| InvalidPreyCaptureError (msg : string)
| InvalidScoreUpdateError (msg : string).

(** How a call ends: it returns its [error] result ([None] for [nil]), or the
    goroutine panics. *)
Inductive outcome :=
| Return (err : option error)
| Panic.

(** The text ["[" + string(move.X) + ", " + string(move.Y) + "]"]. *)
Definition coord_text (move : Coord) : string :=
  ("[" ++ string_of_int (X move) ++ ", " ++ string_of_int (Y move) ++ "]")%string.

(** What the interface calls outside its own file: the grid manager of
    package [geometry], the key parsing of [key-helpers], [fmt.Sscan] into a
    [big.Int] (the value left in the integer) and [ecdsa.Verify]. *)
Class Externals := {
  Settings : Type;
  IsInBounds : Settings → Coord → bool;
  IsValidMove : Settings → Coord → bool;
  PublicKey : Type;
  PublicKeyStringToKey : string → PublicKey;
  Sscan : string → Z;
  Verify : PublicKey → bytes → Z → Z → bool
}.

(** [CheckAuthenticityOfMoveCommit]; a nil commit is dereferenced. *)
Definition CheckAuthenticityOfMoveCommit `{Externals} (m : option MoveCommit)
  : option bool :=
  match m with
  | None => None
  | Some m =>
      let publicKey := PublicKeyStringToKey (PubKey m) in
      let rBigInt := Sscan (R m) in
      let sBigInt := Sscan (S m) in
      Some (Verify publicKey (MoveHash m) rBigInt sBigInt)
  end.

(** The bytes written to the digest by [CalculateHash]: a slice of 2048
    zero bytes, then the three appended texts. *)
Definition hash_input (m : Coord) (id : string) : bytes :=
  let arr := replicate 2048 Byte.x00 in
  let arr := AppendInt arr (wrap_int (X m)) in
  let arr := AppendInt arr (wrap_int (Y m)) in
  AppendQuote arr id.

Definition decimal_text (m : Coord) : bytes :=
  AppendInt (AppendInt [] (wrap_int (X m))) (wrap_int (Y m)).


(** A [*net.UDPConn] is known by the address it was dialled to. *)
Definition UDPConn := string.

(** [defer]: the deferred update runs when the body returns and when it
    panics. *)
Definition defer {St : Type} (d : St → St) (body : outcome * St) : outcome * St :=
  (body.1, d body.2).

(* ===================================================================== *)
(** ** src/logic/impl/node-node-interface.go *)

Module Lockstep.

(** [shared.GameState].  [PlayerLocs] is the [Data] map of the locked
    structure: the two move handlers write it between [Lock] and [Unlock],
    [CheckGotPrey] reads it without the lock. *)
Record shared_GameState := mkGameState {
  PlayerLocs : gmap string Coord;
  PlayerScores : gmap string Z
}.

(** The fields of [PlayerNode] the interface reads and writes. *)
Record PlayerNodeS `{Externals} := mkPlayerNode {
  Identifier : string;
  GameState : shared_GameState;
  GameConfig_Settings : Settings
}.

Record NodeMessage := mkNodeMessage {
  msgIdentifier : string;
  MessageType : string;
  msgGameState : option shared_GameState;
  Move : option Coord;
  msgMoveCommit : option MoveCommit;
  Score : Z;
  Addr : string
}.

Record PendingMessage := mkPendingMessage {
  Recipient : string;
  Message : bytes
}.

(** The GoVector log: [PrepareSend] wraps a message and advances the log. *)
Class Envelope := {
  GoLog : Type;
  PrepareSend : GoLog → string → NodeMessage → bytes * GoLog
}.

(** [NodeCommInterface], without the keys and the server and listener
    connections, which no function below touches. *)
Record NodeCommInterface `{Externals} `{Envelope} := mkNode {
  PlayerNode : PlayerNodeS;
  LocalAddr : string;
  OtherNodes : gmap string UDPConn;
  Log : GoLog;
  MoveCommits : gmap string string;
  MessagesToSend : list PendingMessage;
  NodesToDelete : list string
}.

Section Interface.
Context `{Externals} `{Envelope}.

Definition set_MoveCommits (f : gmap string string → gmap string string)
    (n : NodeCommInterface) : NodeCommInterface :=
  mkNode _ _ (PlayerNode n) (LocalAddr n) (OtherNodes n) (Log n)
    (f (MoveCommits n)) (MessagesToSend n) (NodesToDelete n).

Definition set_PlayerLocs (f : gmap string Coord → gmap string Coord)
    (n : NodeCommInterface) : NodeCommInterface :=
  let p := PlayerNode n in
  let g := GameState p in
  mkNode _ _
    (mkPlayerNode _ (Identifier p)
       (mkGameState (f (PlayerLocs g)) (PlayerScores g))
       (GameConfig_Settings p))
    (LocalAddr n) (OtherNodes n) (Log n) (MoveCommits n) (MessagesToSend n)
    (NodesToDelete n).

(** [n.MessagesToSend <- &PendingMessage{...}], with the log as left by
    [sendMessage]. *)
Definition enqueue_message (log : GoLog) (pm : PendingMessage)
    (n : NodeCommInterface) : NodeCommInterface :=
  mkNode _ _ (PlayerNode n) (LocalAddr n) (OtherNodes n) log (MoveCommits n)
    (MessagesToSend n ++ [pm]) (NodesToDelete n).

Definition sendMessage (goLog : GoLog) (message : NodeMessage) : bytes * GoLog :=
  PrepareSend goLog "SendMessageToOtherNode" message.

Definition SendMoveToNodes (n : NodeCommInterface) (move : option Coord)
  : outcome * NodeCommInterface :=
  match move with
  | None => (Return None, n)
  | Some mv =>
      let message :=
        {| MessageType := "move";
           msgIdentifier := Identifier (PlayerNode n);
           Move := Some mv;
           Addr := LocalAddr n;
           msgGameState := None; msgMoveCommit := None; Score := 0 |} in
      let '(toSend, log) := sendMessage (Log n) message in
      (Return None,
       enqueue_message log {| Recipient := "all"; Message := toSend |} n)
  end.

Definition CalculateHash (n : NodeCommInterface) (m : Coord) (id : string)
  : bytes :=
  MD5.Sum (hash_input m id).

Definition CheckMoveCommitAgainstMove (n : NodeCommInterface)
    (identifier : string) (move : Coord) : bool :=
  let hash := EncodeToString (CalculateHash n move identifier) in
  existsb (λ '(i, mc), bool_decide (mc = hash) && bool_decide (i = identifier))
    (map_to_list (MoveCommits n)).

(** The grid manager made by [geometry.CreateNewGridManager] is known by
    the settings it is made from. *)
Definition CheckMoveIsValid (n : NodeCommInterface) (move : Coord)
  : option error :=
  let gridManager := GameConfig_Settings (PlayerNode n) in
  if negb (IsValidMove gridManager move)
  then Some (InvalidMoveError (coord_text move))
  else None.

Definition CheckGotPrey (n : NodeCommInterface) (move : Coord) : option error :=
  let prey :=
    default (mkCoord 0 0) (PlayerLocs (GameState (PlayerNode n)) !! "prey") in
  if (X move =? X prey) && (Y move =? Y prey) then None
  else Some (InvalidPreyCaptureError (coord_text move)).

Definition HandleReceivedMoveL (n : NodeCommInterface) (identifier : string)
    (move : option Coord) : outcome * NodeCommInterface :=
  defer (set_MoveCommits (delete identifier))
    match move with
    | Some mv =>
        if CheckMoveCommitAgainstMove n identifier mv then
          match CheckMoveIsValid n mv with
          | Some err => (Return (Some err), n)
          | None => (Return None, set_PlayerLocs <[identifier := mv]> n)
          end
        else (Return (Some (InvalidMoveError (coord_text mv))), n)
    | None =>
        (* [move.X] in the error text dereferences the nil pointer *)
        (Panic, n)
    end.

Definition HandleReceivedMoveNL (n : NodeCommInterface) (identifier : string)
    (move : option Coord) : outcome * NodeCommInterface :=
  match move with
  | Some mv =>
      match CheckMoveIsValid n mv with
      | Some err => (Return (Some err), n)
      | None => (Return None, set_PlayerLocs <[identifier := mv]> n)
      end
  | None => (Panic, n)
  end.

Definition HandleReceivedMoveCommit (n : NodeCommInterface)
    (identifier : string) (moveCommit : option MoveCommit)
  : outcome * NodeCommInterface :=
  match moveCommit, CheckAuthenticityOfMoveCommit moveCommit with
  | Some mc, Some true =>
      match MoveCommits n !! identifier with
      | None =>
          (Return None,
           set_MoveCommits <[identifier := EncodeToString (MoveHash mc)]> n)
      | Some _ => (Return None, n)
      end
  | Some _, Some false => (Return (Some (IncorrectPlayerError identifier)), n)
  | _, _ => (Panic, n)
  end.

Definition HandleCapturedPreyRequest (n : NodeCommInterface)
    (identifier : string) (move : option Coord) (score : Z)
  : outcome * NodeCommInterface :=
  match move with
  | None => (Panic, n)
  | Some mv =>
      match CheckGotPrey n mv with
      | Some err => (Return (Some err), n)
      | None =>
          match CheckMoveIsValid n mv with
          | Some err => (Return (Some err), n)
          | None =>
              let playerScore :=
                default 0 (PlayerScores (GameState (PlayerNode n)) !! identifier) in
              if negb (playerScore =? wrap_int (playerScore + 1)) then
                (Return (Some (InvalidScoreUpdateError (string_of_int score))), n)
              else
                (* [playerScore = playerScore + 1] assigns the local copy *)
                let playerScore := wrap_int (playerScore + 1) in
                (Return None, n)
          end
      end
  end.

End Interface.
End Lockstep.

(* ===================================================================== *)
(** ** src/unnamed/part_000: the snapshot with ACKs *)

Module Acks.

Record shared_GameState := mkGameState {
  PlayerLocs : gmap string Coord
}.

Record PlayerNodeS `{Externals} := mkPlayerNode {
  Identifier : string;
  GameState : shared_GameState;
  GameConfig_Settings : Settings
}.

Record NodeMessage := mkNodeMessage {
  msgIdentifier : string;
  MessageType : string;
  msgGameState : option shared_GameState;
  Move : option Coord;
  msgSeq : Z;
  msgMoveCommit : option MoveCommit;
  Addr : string
}.

Record PendingMessage := mkPendingMessage {
  Recipient : string;
  Message : bytes
}.

Record PendingMoveUpdates := mkPendingMoveUpdates {
  Seq : Z;
  Coord_ : option Coord;
  Rejected : Z
}.

Definition REJECTION_MAX : Z := 3.

Class Envelope := {
  GoLog : Type;
  PrepareSend : GoLog → string → NodeMessage → bytes * GoLog
}.

(** [NodeCommInterface] with, next to its fields, the package variable
    [sequenceNumber] and the seconds the [ManageAcks] routine has spent in
    [time.Sleep]. *)
Record NodeCommInterface `{Externals} `{Envelope} := mkNode {
  PlayerNode : PlayerNodeS;
  LocalAddr : string;
  OtherNodes : gmap string UDPConn;
  Log : GoLog;
  MoveCommits : gmap string string;
  MessagesToSend : list PendingMessage;
  NodesToDelete : list string;
  ACKSReceived : gmap Z (list string);
  MovesToSend : list PendingMoveUpdates;
  sequenceNumber : Z;
  Slept : Z
}.

Section Interface.
Context `{Externals} `{Envelope}.

Definition set_MoveCommits (f : gmap string string → gmap string string)
    (n : NodeCommInterface) : NodeCommInterface :=
  mkNode _ _ (PlayerNode n) (LocalAddr n) (OtherNodes n) (Log n)
    (f (MoveCommits n)) (MessagesToSend n) (NodesToDelete n) (ACKSReceived n)
    (MovesToSend n) (sequenceNumber n) (Slept n).

Definition set_PlayerLocs (f : gmap string Coord → gmap string Coord)
    (n : NodeCommInterface) : NodeCommInterface :=
  let p := PlayerNode n in
  mkNode _ _
    (mkPlayerNode _ (Identifier p)
       (mkGameState (f (PlayerLocs (GameState p)))) (GameConfig_Settings p))
    (LocalAddr n) (OtherNodes n) (Log n) (MoveCommits n) (MessagesToSend n)
    (NodesToDelete n) (ACKSReceived n) (MovesToSend n) (sequenceNumber n)
    (Slept n).

Definition set_ACKSReceived
    (f : gmap Z (list string) → gmap Z (list string))
    (n : NodeCommInterface) : NodeCommInterface :=
  mkNode _ _ (PlayerNode n) (LocalAddr n) (OtherNodes n) (Log n)
    (MoveCommits n) (MessagesToSend n) (NodesToDelete n) (f (ACKSReceived n))
    (MovesToSend n) (sequenceNumber n) (Slept n).

Definition set_MovesToSend
    (f : list PendingMoveUpdates → list PendingMoveUpdates)
    (n : NodeCommInterface) : NodeCommInterface :=
  mkNode _ _ (PlayerNode n) (LocalAddr n) (OtherNodes n) (Log n)
    (MoveCommits n) (MessagesToSend n) (NodesToDelete n) (ACKSReceived n)
    (f (MovesToSend n)) (sequenceNumber n) (Slept n).

Definition set_NodesToDelete (f : list string → list string)
    (n : NodeCommInterface) : NodeCommInterface :=
  mkNode _ _ (PlayerNode n) (LocalAddr n) (OtherNodes n) (Log n)
    (MoveCommits n) (MessagesToSend n) (f (NodesToDelete n)) (ACKSReceived n)
    (MovesToSend n) (sequenceNumber n) (Slept n).

Definition set_sequenceNumber (f : Z → Z)
    (n : NodeCommInterface) : NodeCommInterface :=
  mkNode _ _ (PlayerNode n) (LocalAddr n) (OtherNodes n) (Log n)
    (MoveCommits n) (MessagesToSend n) (NodesToDelete n) (ACKSReceived n)
    (MovesToSend n) (f (sequenceNumber n)) (Slept n).

(** [time.Sleep(d * time.Second)] *)
Definition sleep (d : Z) (n : NodeCommInterface) : NodeCommInterface :=
  mkNode _ _ (PlayerNode n) (LocalAddr n) (OtherNodes n) (Log n)
    (MoveCommits n) (MessagesToSend n) (NodesToDelete n) (ACKSReceived n)
    (MovesToSend n) (sequenceNumber n) (Slept n + d).

Definition enqueue_message (log : GoLog) (pm : PendingMessage)
    (n : NodeCommInterface) : NodeCommInterface :=
  mkNode _ _ (PlayerNode n) (LocalAddr n) (OtherNodes n) log (MoveCommits n)
    (MessagesToSend n ++ [pm]) (NodesToDelete n) (ACKSReceived n)
    (MovesToSend n) (sequenceNumber n) (Slept n).

Definition sendMessage (goLog : GoLog) (message : NodeMessage) : bytes * GoLog :=
  PrepareSend goLog "SendMessageToOtherNode" message.

(** The body of the [select] case of [ManageAcks] for a move received from
    [MovesToSend].  The roster is ranged over in the order of
    [map_to_list]. *)
Definition ManageAcks_case (n : NodeCommInterface)
    (moveToSend : PendingMoveUpdates) : outcome * NodeCommInterface :=
  match ACKSReceived n !! Seq moveToSend with
  | Some values =>
      if (size (OtherNodes n) <? length values)%nat then
        match Coord_ moveToSend with
        | None => (Panic, n)
        | Some c =>
            let n := set_PlayerLocs <[Identifier (PlayerNode n) := c]> n in
            let n := sleep 5 n in
            let addresses : gmap string string :=
              foldl (λ acc addr, <[addr := ""%string]> acc) ∅
                (default [] (ACKSReceived n !! Seq moveToSend)) in
            let n :=
              foldl (λ n addr,
                       match addresses !! addr with
                       | None => set_NodesToDelete (λ q, q ++ [addr]) n
                       | Some _ => n
                       end)
                n (map_to_list (OtherNodes n)).*1 in
            (Return None, set_ACKSReceived (delete (Seq moveToSend)) n)
        end
      else if Rejected moveToSend <? REJECTION_MAX then
        let moveToSend :=
          mkPendingMoveUpdates (Seq moveToSend) (Coord_ moveToSend)
            (wrap_int (Rejected moveToSend + 1)) in
        let n := sleep 1 n in
        (Return None, set_MovesToSend (λ q, q ++ [moveToSend]) n)
      else (Return None, set_ACKSReceived (delete (Seq moveToSend)) n)
  | None => (Return None, n)
  end.

(** One turn of the loop of [ManageAcks]: receive the oldest pending move,
    or block when the channel is empty. *)
Definition ManageAcks_turn (n : NodeCommInterface)
  : option (outcome * NodeCommInterface) :=
  match MovesToSend n with
  | [] => None
  | moveToSend :: q => Some (ManageAcks_case (set_MovesToSend (λ _, q) n) moveToSend)
  end.


Definition SendMoveToNodes (n : NodeCommInterface) (move : option Coord)
  : outcome * NodeCommInterface :=
  match move with
  | None => (Return None, n)
  | Some mv =>
      let n := set_sequenceNumber (λ s, wrap_uint64 (s + 1)) n in
      let message :=
        {| MessageType := "move";
           msgIdentifier := Identifier (PlayerNode n);
           Move := Some mv;
           msgSeq := sequenceNumber n;
           Addr := LocalAddr n;
           msgGameState := None; msgMoveCommit := None |} in
      let '(toSend, log) := sendMessage (Log n) message in
      let n := enqueue_message log {| Recipient := "all"; Message := toSend |} n in
      (Return None,
       set_MovesToSend
         (λ q, q ++ [mkPendingMoveUpdates (sequenceNumber n) (Some mv) 0]) n)
  end.

Definition SendACK (n : NodeCommInterface) (identifier : string) (seq : Z)
  : NodeCommInterface :=
  let message :=
    {| MessageType := "ack";
       msgIdentifier := Identifier (PlayerNode n);
       msgSeq := seq;
       Addr := LocalAddr n;
       msgGameState := None; Move := None; msgMoveCommit := None |} in
  let '(toSend, log) := sendMessage (Log n) message in
  enqueue_message log {| Recipient := identifier; Message := toSend |} n.

Definition CalculateHash (m : Coord) (id : string) : bytes :=
  MD5.Sum (hash_input m id).

Definition CheckMoveCommitAgainstMove (n : NodeCommInterface)
    (identifier : string) (move : Coord) : bool :=
  let hash := EncodeToString (CalculateHash move identifier) in
  existsb (λ '(i, mc), bool_decide (mc = hash) && bool_decide (i = identifier))
    (map_to_list (MoveCommits n)).

Definition CheckMoveIsValid (n : NodeCommInterface) (move : Coord)
  : option error :=
  let gridManager := GameConfig_Settings (PlayerNode n) in
  if negb (IsInBounds gridManager move)
  then Some (OutOfBoundsError (coord_text move))
  else if negb (IsValidMove gridManager move)
  then Some (InvalidMoveError (coord_text move))
  else None.

Definition HandleReceivedMoveL (n : NodeCommInterface) (identifier : string)
    (move : option Coord) : outcome * NodeCommInterface :=
  defer (set_MoveCommits (delete identifier))
    match move with
    | Some mv =>
        if CheckMoveCommitAgainstMove n identifier mv then
          match CheckMoveIsValid n mv with
          | Some err => (Return (Some err), n)
          | None => (Return None, set_PlayerLocs <[identifier := mv]> n)
          end
        else (Return (Some (InvalidMoveError (coord_text mv))), n)
    | None => (Panic, n)
    end.

Definition HandleReceivedMoveNL (n : NodeCommInterface) (identifier : string)
    (move : option Coord) (seq : Z) : outcome * NodeCommInterface :=
  match move with
  | Some mv =>
      match CheckMoveIsValid n mv with
      | Some err => (Return (Some err), n)
      | None =>
          let n := set_PlayerLocs <[identifier := mv]> n in
          (Return None, SendACK n identifier seq)
      end
  | None => (Panic, n)
  end.

Definition HandleReceivedMoveCommit (n : NodeCommInterface)
    (identifier : string) (moveCommit : option MoveCommit)
  : outcome * NodeCommInterface :=
  match moveCommit, CheckAuthenticityOfMoveCommit moveCommit with
  | Some mc, Some true =>
      match MoveCommits n !! identifier with
      | None =>
          (Return None,
           set_MoveCommits <[identifier := EncodeToString (MoveHash mc)]> n)
      | Some _ => (Return None, n)
      end
  | Some _, Some false => (Return (Some (IncorrectPlayerError identifier)), n)
  | _, _ => (Panic, n)
  end.

Definition HandleReceivedAck (n : NodeCommInterface) (addr : string) (seq : Z)
  : outcome * NodeCommInterface :=
  match ACKSReceived n !! seq with
  | None => (Return (Some (UnknownSequenceError seq)), n)
  | Some acks => (Return None, set_ACKSReceived <[seq := acks ++ [addr]]> n)
  end.

(** Shorthands for the statements: the player locations, the number of
    acks the ledger holds for a sequence number, the number of peers. *)
Definition locs (n : NodeCommInterface) : gmap string Coord :=
  PlayerLocs (GameState (PlayerNode n)).

Definition ack_count (n : NodeCommInterface) (seq : Z) : nat :=
  length (default [] (ACKSReceived n !! seq)).

Definition roster_size (n : NodeCommInterface) : nat := size (OtherNodes n).

End Interface.
End Acks.

(* ===================================================================== *)
(** ** A concrete game, for running the handlers *)

Module Sample.

(** A [w] by [h] grid with one wall at (5, 5); a toy verifier that accepts
    the signature whose first component is the length of the hash. *)
#[global] Instance grid : Externals := {|
  Settings := Z * Z;
  IsInBounds := λ s c,
    (0 <=? X c) && (X c <? s.1) && (0 <=? Y c) && (Y c <? s.2);
  IsValidMove := λ s c, negb ((X c =? 5) && (Y c =? 5));
  PublicKey := string;
  PublicKeyStringToKey := λ s, s;
  Sscan := λ s, Z.of_nat (String.length s);
  Verify := λ _ h r _, r =? Z.of_nat (length h)
|}.

(** The log counts the messages prepared; the payload is the message type
    followed by the sender. *)
#[global] Instance lockstep_log : Lockstep.Envelope := {|
  Lockstep.GoLog := nat;
  Lockstep.PrepareSend := λ log _ m,
    (bytes_of_string (Lockstep.MessageType m ++ ":" ++ Lockstep.msgIdentifier m),
     Datatypes.S log)
|}.

#[global] Instance acks_log : Acks.Envelope := {|
  Acks.GoLog := nat;
  Acks.PrepareSend := λ log _ m,
    (bytes_of_string (Acks.MessageType m ++ ":" ++ Acks.msgIdentifier m),
     Datatypes.S log)
|}.

Definition prey_commit : string :=
  EncodeToString (MD5.Sum (hash_input (mkCoord 2 3) "prey")).

(** Node 1 of the later snapshot: the prey stands at (2, 3), player 1 has
    score 0, and the prey has committed to (2, 3). *)
Definition node : Lockstep.NodeCommInterface :=
  Lockstep.mkNode _ _
    (Lockstep.mkPlayerNode _ "1"
       (Lockstep.mkGameState {[ "prey" := mkCoord 2 3; "1" := mkCoord 2 3 ]}
          {[ "1" := 0 ]})
       (10, 10))
    "127.0.0.1:9001" {[ "2" := "127.0.0.1:9002" ]} O
    {[ "prey" := prey_commit ]} [] [].

(** Node 1 of the snapshot with ACKs: one peer, and a ledger entry for
    sequence number 1 with one ack from that peer. *)
Definition acks_node : Acks.NodeCommInterface :=
  Acks.mkNode _ _
    (Acks.mkPlayerNode _ "1"
       (Acks.mkGameState {[ "prey" := mkCoord 2 3; "1" := mkCoord 0 0 ]})
       (10, 10))
    "127.0.0.1:9001" {[ "2" := "127.0.0.1:9002" ]} O
    {[ "prey" := prey_commit ]} [] []
    {[ 1 := ["127.0.0.1:9002"%string] ]} [] 1 0.

(** The same node before any ledger entry exists. *)
Definition fresh_node : Acks.NodeCommInterface :=
  Acks.set_ACKSReceived (λ _, ∅) acks_node.

Definition pending : Acks.PendingMoveUpdates :=
  Acks.mkPendingMoveUpdates 1 (Some (mkCoord 1 0)) 0.

Definition peer : string := "127.0.0.1:9002".

(** A commit to (2, 3) by player 7 that the toy verifier accepts, and one
    it rejects. *)
Definition commit : MoveCommit :=
  mkMoveCommit (MD5.Sum (hash_input (mkCoord 2 3) "7")) "key-7"
    "0123456789abcdef" "1".


End Sample.

(* ===================================================================== *)
(** ** encoding/hex, decoding *)

Definition hexvalue (a : ascii) : option Z :=
  let n := Z.of_N (N_of_ascii a) in
  if (48 <=? n) && (n <=? 57) then Some (n - 48)
  else if (97 <=? n) && (n <=? 102) then Some (n - 87)
  else if (65 <=? n) && (n <=? 70) then Some (n - 55)
  else None.

(** [hex.DecodeString], the inverse of [EncodeToString]; the interface does
    not call it, it serves to tell two encoded hashes apart. *)
Fixpoint DecodeString (s : string) : option bytes :=
  match s with
  | EmptyString => Some []
  | String _ EmptyString => None
  | String a (String b s') =>
      match hexvalue a, hexvalue b, DecodeString s' with
      | Some h, Some l, Some r => Some (byte_of_Z (16 * h + l) :: r)
      | _, _, _ => None
      end
  end.

(** [strconv.Itoa] *)
Definition Itoa (i : Z) : string := NilZero.string_of_int (Z.to_int i).

(* ===================================================================== *)
(** ** src/unnamed/part_000: the roster routine, the senders and the
       listener *)

Module Peers.

Record OtherNode := mkOtherNode {
  Identifier : string;
  Conn : UDPConn
}.

(** [net.ResolveUDPAddr] followed by [net.DialUDP]: the connection, or the
    error of the dial. *)
Class Transport := {
  DialUDP : string → option UDPConn
}.

(** The node together with what the routines below use beyond the fields of
    [Acks.NodeCommInterface]: [Config.Identifier], the channel [NodesToAdd]
    and the [Write] calls made on connections, oldest first. *)
Record World `{Externals} `{Acks.Envelope} := mkWorld {
  node : Acks.NodeCommInterface;
  Config_Identifier : Z;
  NodesToAdd : list OtherNode;
  Written : list (UDPConn * bytes)
}.

(** The three cases of the [select] in [ManageOtherNodes]. *)
Inductive ready :=
| FromMessagesToSend
| FromNodesToAdd
| FromNodesToDelete.

(** What the goroutines of a node do, one at a time. *)
Inductive event :=
| Received (message : Acks.NodeMessage)
| CallSendMoveToNodes (move : option Coord)
| CallSendGameStateToNode (otherNodeId : string)
| CallSendMoveCommitToNodes (moveCommit : option MoveCommit)
| CallFloodNodes
| TurnManageAcks
| TurnManageOtherNodes (c : ready).

Section Routines.
Context `{Externals} `{Acks.Envelope} `{Transport}.

Definition set_OtherNodes (f : gmap string UDPConn → gmap string UDPConn)
    (n : Acks.NodeCommInterface) : Acks.NodeCommInterface :=
  Acks.mkNode _ _ (Acks.PlayerNode n) (Acks.LocalAddr n) (f (Acks.OtherNodes n))
    (Acks.Log n) (Acks.MoveCommits n) (Acks.MessagesToSend n)
    (Acks.NodesToDelete n) (Acks.ACKSReceived n) (Acks.MovesToSend n)
    (Acks.sequenceNumber n) (Acks.Slept n).

Definition set_MessagesToSend
    (f : list Acks.PendingMessage → list Acks.PendingMessage)
    (n : Acks.NodeCommInterface) : Acks.NodeCommInterface :=
  Acks.mkNode _ _ (Acks.PlayerNode n) (Acks.LocalAddr n) (Acks.OtherNodes n)
    (Acks.Log n) (Acks.MoveCommits n) (f (Acks.MessagesToSend n))
    (Acks.NodesToDelete n) (Acks.ACKSReceived n) (Acks.MovesToSend n)
    (Acks.sequenceNumber n) (Acks.Slept n).

Definition set_GameState (g : Acks.shared_GameState)
    (n : Acks.NodeCommInterface) : Acks.NodeCommInterface :=
  let p := Acks.PlayerNode n in
  Acks.mkNode _ _
    (Acks.mkPlayerNode _ (Acks.Identifier p) g (Acks.GameConfig_Settings p))
    (Acks.LocalAddr n) (Acks.OtherNodes n) (Acks.Log n) (Acks.MoveCommits n)
    (Acks.MessagesToSend n) (Acks.NodesToDelete n) (Acks.ACKSReceived n)
    (Acks.MovesToSend n) (Acks.sequenceNumber n) (Acks.Slept n).

Definition set_node (f : Acks.NodeCommInterface → Acks.NodeCommInterface)
    (w : World) : World :=
  mkWorld _ _ (f (node w)) (Config_Identifier w) (NodesToAdd w) (Written w).

Definition set_NodesToAdd (f : list OtherNode → list OtherNode) (w : World)
  : World :=
  mkWorld _ _ (node w) (Config_Identifier w) (f (NodesToAdd w)) (Written w).

(** [val.Write(toSend)]; an error of the write is printed or dropped. *)
Definition Write (val : UDPConn) (toSend : bytes) (w : World) : World :=
  mkWorld _ _ (node w) (Config_Identifier w) (NodesToAdd w)
    (Written w ++ [(val, toSend)]).

(** A call on the node alone. *)
Definition on_node (r : outcome * Acks.NodeCommInterface) (w : World)
  : outcome * World :=
  (r.1, set_node (λ _, r.2) w).

(** The roster is ranged over in the order of [map_to_list]. *)
Definition sendMessageToNodes (w : World) (toSend : bytes) : World :=
  foldl (λ w kv, Write kv.2 toSend w) w
    (map_to_list (Acks.OtherNodes (node w))).

Definition ManageOtherNodes_send (w : World) (toSend : Acks.PendingMessage)
  : World :=
  if negb (String.eqb (Acks.Recipient toSend) "all") then
    match Acks.OtherNodes (node w) !! Acks.Recipient toSend with
    | Some conn => Write conn (Acks.Message toSend) w
    | None => w
    end
  else sendMessageToNodes w (Acks.Message toSend).

Definition ManageOtherNodes_add (w : World) (toAdd : OtherNode) : World :=
  set_node (set_OtherNodes <[Identifier toAdd := Conn toAdd]>) w.

Definition ManageOtherNodes_delete (w : World) (toDelete : string) : World :=
  set_node (set_OtherNodes (delete toDelete)) w.

(** One turn of the loop of [ManageOtherNodes] on the case [c] of the
    [select]; [None] when that channel has nothing to receive. *)
Definition ManageOtherNodes_turn (c : ready) (w : World) : option World :=
  match c with
  | FromMessagesToSend =>
      match Acks.MessagesToSend (node w) with
      | [] => None
      | toSend :: q =>
          Some (ManageOtherNodes_send
                  (set_node (set_MessagesToSend (λ _, q)) w) toSend)
      end
  | FromNodesToAdd =>
      match NodesToAdd w with
      | [] => None
      | toAdd :: q => Some (ManageOtherNodes_add (set_NodesToAdd (λ _, q) w) toAdd)
      end
  | FromNodesToDelete =>
      match Acks.NodesToDelete (node w) with
      | [] => None
      | toDelete :: q =>
          Some (ManageOtherNodes_delete
                  (set_node (Acks.set_NodesToDelete (λ _, q)) w) toDelete)
      end
  end.

(** The routine taking case [c] of the [select] for at most [turns] turns,
    until that channel is empty. *)
Fixpoint serve (c : ready) (turns : nat) (w : World) : World :=
  match turns with
  | O => w
  | Datatypes.S turns' =>
      match ManageOtherNodes_turn c w with
      | None => w
      | Some w' => serve c turns' w'
      end
  end.

Definition SendGameStateToNode (n : Acks.NodeCommInterface)
    (otherNodeId : string) : Acks.NodeCommInterface :=
  let message :=
    {| Acks.MessageType := "gameState";
       Acks.msgIdentifier := Acks.Identifier (Acks.PlayerNode n);
       Acks.msgGameState := Some (Acks.GameState (Acks.PlayerNode n));
       Acks.Addr := Acks.LocalAddr n;
       Acks.Move := None; Acks.msgSeq := 0; Acks.msgMoveCommit := None |} in
  let '(toSend, log) := Acks.sendMessage (Acks.Log n) message in
  Acks.enqueue_message log
    {| Acks.Recipient := otherNodeId; Acks.Message := toSend |} n.

Definition SendMoveCommitToNodes (n : Acks.NodeCommInterface)
    (moveCommit : option MoveCommit) : Acks.NodeCommInterface :=
  let message :=
    {| Acks.MessageType := "moveCommit";
       Acks.msgIdentifier := Acks.Identifier (Acks.PlayerNode n);
       Acks.msgMoveCommit := moveCommit;
       Acks.Addr := Acks.LocalAddr n;
       Acks.msgGameState := None; Acks.Move := None; Acks.msgSeq := 0 |} in
  let '(toSend, log) := Acks.sendMessage (Acks.Log n) message in
  Acks.enqueue_message log {| Acks.Recipient := "all"; Acks.Message := toSend |} n.

(** [InitiateConnection]: the connection it is given is not used. *)
Definition InitiateConnection (w : World) (nodeClient : UDPConn) : World :=
  let n := node w in
  let message :=
    {| Acks.MessageType := "connect";
       Acks.msgIdentifier := Itoa (Config_Identifier w);
       Acks.msgGameState := None;
       Acks.Addr := Acks.LocalAddr n;
       Acks.Move := None;
       Acks.msgSeq := 0; Acks.msgMoveCommit := None |} in
  let '(toSend, log) := Acks.sendMessage (Acks.Log n) message in
  set_node
    (Acks.enqueue_message log
       {| Acks.Recipient := "all"; Acks.Message := toSend |}) w.

Definition FloodNodes (w : World) : World :=
  foldl (λ w kv, InitiateConnection w kv.2) w
    (map_to_list (Acks.OtherNodes (node w))).

(** [n.PlayerNode.GameState = *gameState] *)
Definition HandleReceivedGameState (n : Acks.NodeCommInterface)
    (identifier : string) (gameState : option Acks.shared_GameState)
  : outcome * Acks.NodeCommInterface :=
  match gameState with
  | None => (Panic, n)
  | Some g => (Return None, set_GameState g n)
  end.

Definition GetClientFromAddrString (addr : string) : option UDPConn :=
  DialUDP addr.

Definition HandleIncomingConnectionRequest (w : World) (identifier addr : string)
  : outcome * World :=
  match GetClientFromAddrString addr with
  | None => (Panic, w)
  | Some node =>
      (Return None,
       set_NodesToAdd (λ q, q ++ [mkOtherNode identifier node]) w)
  end.

(** The listener drops whatever error a handler returns. *)
Definition drop_error {St : Type} (r : outcome * St) : outcome * St :=
  match r.1 with
  | Panic => (Panic, r.2)
  | Return _ => (Return None, r.2)
  end.

(** The [switch] of [RunListener] on a message unpacked from a datagram. *)
Definition RunListener_switch (w : World) (message : Acks.NodeMessage)
  : outcome * World :=
  let n := node w in
  let id := Acks.msgIdentifier message in
  let t := Acks.MessageType message in
  if String.eqb t "gameState" then
    drop_error (on_node (HandleReceivedGameState n id (Acks.msgGameState message)) w)
  else if String.eqb t "moveCommit" then
    drop_error
      (on_node (Acks.HandleReceivedMoveCommit n id (Acks.msgMoveCommit message)) w)
  else if String.eqb t "move" then
    if String.eqb id "prey" then
      drop_error (on_node (Acks.HandleReceivedMoveL n id (Acks.Move message)) w)
    else
      drop_error
        (on_node
           (Acks.HandleReceivedMoveNL n id (Acks.Move message)
              (Acks.msgSeq message)) w)
  else if String.eqb t "connect" then
    drop_error (HandleIncomingConnectionRequest w id (Acks.Addr message))
  else if String.eqb t "connected" then (Return None, w)
  else if String.eqb t "ack" then
    drop_error
      (on_node (Acks.HandleReceivedAck n (Acks.Addr message) (Acks.msgSeq message)) w)
  else (Return None, w).

(** One event on the node; a routine that finds its channel empty leaves
    the world as it is. *)
Definition step (e : event) (w : World) : outcome * World :=
  match e with
  | Received message => RunListener_switch w message
  | CallSendMoveToNodes move => on_node (Acks.SendMoveToNodes (node w) move) w
  | CallSendGameStateToNode otherNodeId =>
      (Return None, set_node (λ n, SendGameStateToNode n otherNodeId) w)
  | CallSendMoveCommitToNodes moveCommit =>
      (Return None, set_node (λ n, SendMoveCommitToNodes n moveCommit) w)
  | CallFloodNodes => (Return None, FloodNodes w)
  | TurnManageAcks =>
      match Acks.ManageAcks_turn (node w) with
      | None => (Return None, w)
      | Some r => on_node r w
      end
  | TurnManageOtherNodes c =>
      (Return None, default w (ManageOtherNodes_turn c w))
  end.

(** A schedule of events; a panic in any goroutine ends the process. *)
Fixpoint run (es : list event) (w : World) : outcome * World :=
  match es with
  | [] => (Return None, w)
  | e :: es' =>
      match step e w with
      | (Panic, w') => (Panic, w')
      | (Return _, w') => run es' w'
      end
  end.

End Routines.
End Peers.

(** A world around the sample node with ACKs; dialling fails on the empty
    address only. *)
Module PeersSample.

#[global] Instance dial : Peers.Transport := {|
  Peers.DialUDP := λ addr, if String.eqb addr "" then None else Some addr
|}.

Definition world : Peers.World :=
  Peers.mkWorld _ _ Sample.acks_node 1 [] [].

(** A commit to (1, 23) by player 7 that the toy verifier accepts. *)
Definition commit_1_23 : MoveCommit :=
  mkMoveCommit (MD5.Sum (hash_input (mkCoord 1 23) "7")) "key-7"
    "0123456789abcdef" "1".

(** A move message from peer 2 with sequence number 7. *)
Definition move_from_2 : Acks.NodeMessage :=
  Acks.mkNodeMessage "2" "move" None (Some (mkCoord 4 5)) 7 None Sample.peer.

(** The world before any ledger entry exists. *)
Definition fresh_world : Peers.World :=
  Peers.mkWorld _ _ Sample.fresh_node 1 [] [].

(** The sample node after a second ack from its only peer: quorum for
    sequence number 1. *)
Definition quorum_world : Peers.World :=
  Peers.mkWorld _ _ (Acks.HandleReceivedAck Sample.acks_node Sample.peer 1).2
    1 [] [].

Definition connect_from_3 : Acks.NodeMessage :=
  Acks.mkNodeMessage "3" "connect" None None 0 None "127.0.0.1:9003".

Definition ack_from_2 : Acks.NodeMessage :=
  Acks.mkNodeMessage "2" "ack" None None 2 None Sample.peer.

Definition hello : Acks.NodeMessage :=
  Acks.mkNodeMessage "2" "hello" None None 0 None Sample.peer.

End PeersSample.

(** The player locations of the later snapshot. *)
Definition lockstep_locs `{Externals} `{Lockstep.Envelope}
    (n : Lockstep.NodeCommInterface) : gmap string Coord :=
  Lockstep.PlayerLocs (Lockstep.GameState (Lockstep.PlayerNode n)).

(* ===================================================================== *)
(** * Properties *)

(** ** The library functions on known values *)

Example md5_empty :
  EncodeToString (MD5.Sum []) = "d41d8cd98f00b204e9800998ecf8427e"%string.
Proof. vm_compute. reflexivity. Qed.

Example md5_abc :
  EncodeToString (MD5.Sum (bytes_of_string "abc"))
  = "900150983cd24fb0d6963f7d28e17f72"%string.
Proof. vm_compute. reflexivity. Qed.

Example md5_three_blocks :
  EncodeToString (MD5.Sum (bytes_of_string
    "The quick brown fox jumps over the lazy dogThe quick brown fox jumps over the lazy dogThe quick brown fox jumps over the lazy dog"))
  = "4e67db4a7a406b0cfdadd887cde7888e"%string.
Proof. vm_compute. reflexivity. Qed.

Example AppendInt_neg : AppendInt [] (-12) = bytes_of_string "-12".
Proof. vm_compute. reflexivity. Qed.

Example AppendQuote_prey :
  string_of_bytes (AppendQuote [] "prey")
  = String dquote ("prey" ++ String dquote EmptyString)%string.
Proof. vm_compute. reflexivity. Qed.

Example string_of_int_A : string_of_int 65 = "A"%string.
Proof. vm_compute. reflexivity. Qed.

Example hash_1_23 :
  EncodeToString (MD5.Sum (hash_input (mkCoord 1 23) "prey"))
  = "1ad2e13243119d7abcadbed52c20ad7c"%string.
Proof. vm_compute. reflexivity. Qed.

Example hash_2_3 :
  EncodeToString (MD5.Sum (hash_input (mkCoord 2 3) "prey"))
  = "d80817231f2def0dfcf17e60f6b0fe28"%string.
Proof. vm_compute. reflexivity. Qed.

(* ===================================================================== *)
(** ** Machine integers *)

Lemma wrap_int_range (z : Z) : - 2 ^ 63 <= wrap_int z < 2 ^ 63.
Proof. unfold wrap_int. pose proof (Z.mod_pos_bound (z + 2 ^ 63) (2 ^ 64)). lia. Qed.

Lemma wrap_int_small (z : Z) : - 2 ^ 63 <= z < 2 ^ 63 → wrap_int z = z.
Proof. intros Hz. unfold wrap_int. rewrite Z.mod_small by lia. lia. Qed.

(** In 64-bit arithmetic no integer equals its own successor. *)
Lemma wrap_int_succ_neq (z : Z) : z ≠ wrap_int (z + 1).
Proof.
  intros Heq.
  assert (Hr : - 2 ^ 63 <= z < 2 ^ 63) by (rewrite Heq; apply wrap_int_range).
  destruct (decide (z = 2 ^ 63 - 1)) as [->|Hne].
  - vm_compute in Heq. discriminate.
  - rewrite wrap_int_small in Heq by lia. lia.
Qed.

(* ===================================================================== *)
(** ** The commitment hash *)

Lemma hash_input_split (m : Coord) (id : string) :
  hash_input m id = replicate 2048 Byte.x00 ++ decimal_text m ++ AppendQuote [] id.
Proof.
  unfold hash_input, decimal_text, AppendQuote, AppendInt.
  rewrite !app_nil_l, <- !app_assoc. reflexivity.
Qed.

Lemma hash_input_eq_iff (c1 c2 : Coord) (id : string) :
  hash_input c1 id = hash_input c2 id ↔ decimal_text c1 = decimal_text c2.
Proof.
  rewrite !hash_input_split. split.
  - intros Heq. apply app_inv_head in Heq. by apply app_inv_tail in Heq.
  - by intros ->.
Qed.

Section Hash.
Context `{Externals} `{Lockstep.Envelope}.

(** C4, as the code has it.  [CalculateHash] is the MD5 digest of 2048 zero
    bytes followed by the decimal texts of x and y and the quoted
    identifier: it does not depend on the node it is called on, the two
    snapshots agree, and the bytes digested for two coordinates under one
    identifier are equal exactly when the concatenated decimal texts of the
    coordinates are equal, in which case the digests are equal as well. *)
Theorem CalculateHash_texts
    (n1 n2 : Lockstep.NodeCommInterface) (c1 c2 : Coord) (id : string) :
  Lockstep.CalculateHash n1 c1 id = Lockstep.CalculateHash n2 c1 id
  ∧ Lockstep.CalculateHash n1 c1 id = Acks.CalculateHash c1 id
  ∧ Acks.CalculateHash c1 id = MD5.Sum (hash_input c1 id)
  ∧ (hash_input c1 id = hash_input c2 id ↔ decimal_text c1 = decimal_text c2)
  ∧ (decimal_text c1 = decimal_text c2 →
     Acks.CalculateHash c1 id = Acks.CalculateHash c2 id
     ∧ Lockstep.CalculateHash n1 c1 id = Lockstep.CalculateHash n1 c2 id).
Proof.
  repeat split; try reflexivity.
  - apply hash_input_eq_iff.
  - apply hash_input_eq_iff.
  - unfold Acks.CalculateHash. f_equal. by apply hash_input_eq_iff.
  - unfold Lockstep.CalculateHash. f_equal. by apply hash_input_eq_iff.
Qed.

End Hash.

Lemma CalculateHash_texts_witness :
  decimal_text (mkCoord 1 23) = decimal_text (mkCoord 12 3)
  ∧ Acks.CalculateHash (mkCoord 1 23) "prey" = Acks.CalculateHash (mkCoord 12 3) "prey".
Proof.
  assert (Ht : decimal_text (mkCoord 1 23) = decimal_text (mkCoord 12 3))
    by (vm_compute; reflexivity).
  split; [exact Ht|].
  destruct (CalculateHash_texts Sample.node Sample.node
              (mkCoord 1 23) (mkCoord 12 3) "prey") as (_ & _ & _ & _ & Hc).
  exact (proj1 (Hc Ht)).
Defined.

(** C4 as stated fails: (1, 23) and (12, 3) are distinct coordinates with
    the same hash under the identifier ["prey"], in both snapshots. *)
Lemma CalculateHash_collision :
  mkCoord 1 23 ≠ mkCoord 12 3
  ∧ Acks.CalculateHash (mkCoord 1 23) "prey" = Acks.CalculateHash (mkCoord 12 3) "prey"
  ∧ Lockstep.CalculateHash Sample.node (mkCoord 1 23) "prey"
    = Lockstep.CalculateHash Sample.node (mkCoord 12 3) "prey".
Proof.
  split; [discriminate|].
  unfold Acks.CalculateHash, Lockstep.CalculateHash.
  split; f_equal; vm_compute; reflexivity.
Qed.

(* ===================================================================== *)
(** ** The handlers of node-node-interface.go *)

Section LockstepFacts.
Context `{Externals} `{Lockstep.Envelope}.
Implicit Types (n : Lockstep.NodeCommInterface) (identifier : string).

(** Ranging over the commits for a matching key and hash is a lookup. *)
Lemma Lockstep_CheckMoveCommitAgainstMove_lookup n identifier (move : Coord) :
  Lockstep.CheckMoveCommitAgainstMove n identifier move = true
  ↔ Lockstep.MoveCommits n !! identifier
    = Some (EncodeToString (Lockstep.CalculateHash n move identifier)).
Proof.
  unfold Lockstep.CheckMoveCommitAgainstMove. rewrite existsb_exists. split.
  - intros [[i mc] [Hin Hb]]. apply andb_prop in Hb as [Hmc Hi].
    apply bool_decide_eq_true in Hmc, Hi. subst.
    by apply list_elem_of_In, elem_of_map_to_list in Hin.
  - intros Hl. eexists (identifier, _). split.
    + apply list_elem_of_In, elem_of_map_to_list. exact Hl.
    + by rewrite !bool_decide_eq_true_2.
Qed.

(** The deferred [delete] removes the sender's commit however the lockstep
    handler ends. *)
Lemma Lockstep_HandleReceivedMoveL_consumes n identifier (move : option Coord) :
  Lockstep.MoveCommits (Lockstep.HandleReceivedMoveL n identifier move).2
  = delete identifier (Lockstep.MoveCommits n).
Proof.
  unfold Lockstep.HandleReceivedMoveL, defer. simpl.
  destruct move as [mv|]; [|done].
  destruct (Lockstep.CheckMoveCommitAgainstMove n identifier mv); [|done].
  by destruct (Lockstep.CheckMoveIsValid n mv).
Qed.

(** A revealed move is applied exactly when its hash is the stored commit
    and the grid accepts it; a mismatch is an invalid move and leaves the
    game state alone. *)
Lemma Lockstep_HandleReceivedMoveL_move n identifier (mv : Coord) :
  let r := Lockstep.HandleReceivedMoveL n identifier (Some mv) in
  let stored :=
    Lockstep.MoveCommits n !! identifier
    = Some (EncodeToString (Lockstep.CalculateHash n mv identifier)) in
  (stored → Lockstep.CheckMoveIsValid n mv = None →
     r = (Return None,
          Lockstep.set_MoveCommits (delete identifier)
            (Lockstep.set_PlayerLocs <[identifier := mv]> n)))
  ∧ (stored → ∀ err, Lockstep.CheckMoveIsValid n mv = Some err →
     r = (Return (Some err), Lockstep.set_MoveCommits (delete identifier) n))
  ∧ (¬ stored →
     r = (Return (Some (InvalidMoveError (coord_text mv))),
          Lockstep.set_MoveCommits (delete identifier) n)).
Proof.
  cbv zeta. unfold Lockstep.HandleReceivedMoveL, defer.
  rewrite <- Lockstep_CheckMoveCommitAgainstMove_lookup.
  destruct (Lockstep.CheckMoveCommitAgainstMove n identifier mv).
  - split; [|split].
    + by intros _ ->.
    + by intros _ err ->.
    + by intros [].
  - split; [|split]; [discriminate|discriminate|done].
Qed.

(** X16.  The score check compares the recorded score with its own
    successor, so a capture claim never succeeds and never changes the node,
    whatever the coordinate, the claimed score and the recorded score. *)
Lemma HandleCapturedPreyRequest_never_succeeds n identifier
    (move : option Coord) (score : Z) :
  (Lockstep.HandleCapturedPreyRequest n identifier move score).1 ≠ Return None
  ∧ (Lockstep.HandleCapturedPreyRequest n identifier move score).2 = n.
Proof.
  unfold Lockstep.HandleCapturedPreyRequest.
  destruct move as [mv|]; [|done].
  destruct (Lockstep.CheckGotPrey n mv); [done|].
  destruct (Lockstep.CheckMoveIsValid n mv); [done|].
  set (playerScore := default 0 _).
  destruct (Z.eqb_spec playerScore (wrap_int (playerScore + 1))) as [Heq|Hne].
  - by apply wrap_int_succ_neq in Heq.
  - done.
Qed.

(** X17.  The checks of a capture claim, in order: a coordinate other than
    the prey's gives the invalid-prey-capture error whatever the grid says;
    the prey's coordinate refused by the grid gives the invalid-move error;
    the prey's coordinate accepted by the grid gives the
    invalid-score-update error, built from the claimed score.  The node is
    unchanged in all three cases. *)
Lemma HandleCapturedPreyRequest_checks n identifier (mv : Coord) (score : Z) :
  let r := Lockstep.HandleCapturedPreyRequest n identifier (Some mv) score in
  (∀ err, Lockstep.CheckGotPrey n mv = Some err →
     r = (Return (Some (InvalidPreyCaptureError (coord_text mv))), n))
  ∧ (Lockstep.CheckGotPrey n mv = None →
     IsValidMove (Lockstep.GameConfig_Settings (Lockstep.PlayerNode n)) mv = false →
     r = (Return (Some (InvalidMoveError (coord_text mv))), n))
  ∧ (Lockstep.CheckGotPrey n mv = None →
     IsValidMove (Lockstep.GameConfig_Settings (Lockstep.PlayerNode n)) mv = true →
     r = (Return (Some (InvalidScoreUpdateError (string_of_int score))), n)).
Proof.
  cbv zeta. unfold Lockstep.HandleCapturedPreyRequest, Lockstep.CheckMoveIsValid.
  split; [|split].
  - intros err Herr. rewrite Herr. unfold Lockstep.CheckGotPrey in Herr.
    destruct (_ && _); [done|]. by inversion Herr.
  - by intros -> ->.
  - intros -> ->. simpl.
    set (playerScore := default 0 _).
    destruct (Z.eqb_spec playerScore (wrap_int (playerScore + 1))) as [Heq|Hne];
      [|done].
    by apply wrap_int_succ_neq in Heq.
Qed.

End LockstepFacts.

(** C1 at a capture claim that meets all three conditions.  The prey
    stands at (2, 3), the grid accepts (2, 3) and player 1 has score 0;
    player 1 claims the capture at (2, 3) with score 1.  The handler returns
    an invalid-score-update error and the recorded score stays 0. *)
Theorem HandleCapturedPreyRequest_true_claim_rejected :
  let n := Sample.node in
  let r := Lockstep.HandleCapturedPreyRequest n "1" (Some (mkCoord 2 3)) 1 in
  Lockstep.CheckGotPrey n (mkCoord 2 3) = None
  ∧ Lockstep.CheckMoveIsValid n (mkCoord 2 3) = None
  ∧ Lockstep.PlayerScores (Lockstep.GameState (Lockstep.PlayerNode n)) !! "1"
    = Some 0
  ∧ r.1 = Return (Some (InvalidScoreUpdateError (string_of_int 1)))
  ∧ Lockstep.PlayerScores (Lockstep.GameState (Lockstep.PlayerNode r.2)) !! "1"
    = Some 0.
Proof. vm_compute. repeat split; reflexivity. Qed.

(* ===================================================================== *)
(** ** The handlers and the quorum routine of the snapshot with ACKs *)

Section AcksFacts.
Context `{Externals} `{Acks.Envelope}.
Implicit Types (n : Acks.NodeCommInterface) (identifier addr : string)
  (m : Acks.PendingMoveUpdates) (seq : Z) (acks : list string).

(** The acknowledging addresses, as the map built after the grace sleep. *)
Lemma addresses_lookup acks (acc : gmap string string) addr :
  foldl (λ acc a, <[a := ""%string]> acc) acc acks !! addr
  = if decide (addr ∈ acks) then Some ""%string else acc !! addr.
Proof.
  revert acc. induction acks as [|a acks IH]; intros acc; simpl.
  - destruct (decide (addr ∈ [])) as [Hin|]; [by apply elem_of_nil in Hin|done].
  - rewrite IH.
    destruct (decide (addr ∈ acks)) as [Hin|Hnin],
             (decide (addr ∈ a :: acks)) as [Hin'|Hnin']; try done.
    + exfalso. apply Hnin'. by right.
    + apply elem_of_cons in Hin' as [->|?]; [by rewrite lookup_insert_eq|done].
    + rewrite lookup_insert_ne; [done|]. intros ->. apply Hnin'. left.
Qed.

(** The eviction loop only appends to [NodesToDelete]. *)
Lemma evict_spec (addresses : gmap string string) (roster : list string) n :
  let n' :=
    foldl (λ n addr,
             match addresses !! addr with
             | None => Acks.set_NodesToDelete (λ q, q ++ [addr]) n
             | Some _ => n
             end) n roster in
  n' = Acks.set_NodesToDelete
         (λ q, q ++ filter (λ addr, addresses !! addr = None) roster) n.
Proof.
  cbv zeta. revert n. induction roster as [|a roster IH]; intros n; simpl.
  - destruct n. unfold Acks.set_NodesToDelete. simpl. by rewrite app_nil_r.
  - rewrite IH. rewrite filter_cons. destruct (addresses !! a) eqn:Ha.
    + rewrite decide_False by done. done.
    + rewrite decide_True by done. unfold Acks.set_NodesToDelete. simpl.
      by rewrite <- app_assoc.
Qed.

(** With strictly more acks than peers the move is applied, the peers that
    did not ack are queued for removal, and the ledger entry is dropped. *)
Lemma ManageAcks_case_quorum n m acks (c : Coord) :
  Acks.ACKSReceived n !! Acks.Seq m = Some acks →
  (Acks.roster_size n < length acks)%nat →
  Acks.Coord_ m = Some c →
  Acks.ManageAcks_case n m
  = (Return None,
     Acks.set_ACKSReceived (delete (Acks.Seq m))
       (Acks.set_NodesToDelete
          (λ q, q ++ filter (λ addr, addr ∉ acks)
                       (map_to_list (Acks.OtherNodes n)).*1)
          (Acks.sleep 5
             (Acks.set_PlayerLocs <[Acks.Identifier (Acks.PlayerNode n) := c]> n)))).
Proof.
  intros Hacks Hlt Hc. unfold Acks.ManageAcks_case, Acks.roster_size in *.
  rewrite Hacks, Hc. apply Nat.ltb_lt in Hlt. rewrite Hlt.
  simpl. rewrite Hacks. simpl.
  rewrite evict_spec. unfold Acks.set_NodesToDelete. simpl.
  rewrite (list_filter_iff _ (λ addr, addr ∉ acks)); [done|].
  intros addr. rewrite addresses_lookup, lookup_empty.
  by destruct (decide (addr ∈ acks)).
Qed.

(** Without strictly more acks than peers the locations are untouched. *)
Lemma ManageAcks_case_below_quorum n m :
  (Acks.ack_count n (Acks.Seq m) ≤ Acks.roster_size n)%nat →
  Acks.locs (Acks.ManageAcks_case n m).2 = Acks.locs n.
Proof.
  unfold Acks.ack_count, Acks.roster_size, Acks.ManageAcks_case.
  destruct (Acks.ACKSReceived n !! Acks.Seq m) as [acks|]; simpl; [|done].
  intros Hle. apply Nat.ltb_ge in Hle. rewrite Hle.
  by destruct (Acks.Rejected m <? Acks.REJECTION_MAX).
Qed.

(** C2.  One evaluation of a pending move by the quorum routine changes the
    player locations only when the ledger holds strictly more acks for the
    move's sequence number than there are peers in the roster: with at most
    as many acks as peers (in particular with a roster of three and three or
    fewer acks) the locations are untouched, and with strictly more the
    move's coordinate is stored for this node. *)
Theorem ManageAcks_applies_only_above_roster n m :
  let r := Acks.ManageAcks_case n m in
  ((Acks.ack_count n (Acks.Seq m) ≤ Acks.roster_size n)%nat → Acks.locs r.2 = Acks.locs n)
  ∧ (∀ c, (Acks.roster_size n < Acks.ack_count n (Acks.Seq m))%nat →
          Acks.Coord_ m = Some c →
          r.1 = Return None
          ∧ Acks.locs r.2 = <[Acks.Identifier (Acks.PlayerNode n) := c]> (Acks.locs n))
  ∧ (Acks.roster_size n = 3%nat → (Acks.ack_count n (Acks.Seq m) ≤ 3)%nat →
     Acks.locs r.2 = Acks.locs n).
Proof.
  cbv zeta.
  pose proof (ManageAcks_case_below_quorum n m) as Hle.
  split; [exact Hle|]. split.
  - intros c Hlt Hc. unfold Acks.ack_count in Hlt.
    destruct (Acks.ACKSReceived n !! Acks.Seq m) as [acks|] eqn:Hacks;
      simpl in Hlt; [|lia].
    by rewrite (ManageAcks_case_quorum n m acks c).
  - intros H3 Hle3. apply Hle. lia.
Qed.



(** C7.  [HandleReceivedAck] returns the unknown-sequence error exactly when
    the ledger has no entry for the sequence number, and then leaves the
    node, hence the ledger, as it was; when there is an entry it returns nil
    and the entry is the old one with the sender's address appended. *)
Theorem HandleReceivedAck_unknown_iff_absent n addr seq :
  let r := Acks.HandleReceivedAck n addr seq in
  (r.1 = Return (Some (UnknownSequenceError seq))
   ↔ Acks.ACKSReceived n !! seq = None)
  ∧ (Acks.ACKSReceived n !! seq = None →
     r.2 = n ∧ Acks.ACKSReceived r.2 !! seq = None)
  ∧ (∀ acks, Acks.ACKSReceived n !! seq = Some acks →
     r = (Return None, Acks.set_ACKSReceived <[seq := acks ++ [addr]]> n)
     ∧ Acks.ACKSReceived r.2 !! seq = Some (acks ++ [addr])).
Proof.
  cbv zeta. unfold Acks.HandleReceivedAck.
  destruct (Acks.ACKSReceived n !! seq) as [acks|] eqn:Hacks; simpl.
  - split; [split; discriminate|]. split; [discriminate|].
    intros acks' Heq. injection Heq as <-. by rewrite lookup_insert_eq.
  - split; [done|]. split; [done|discriminate].
Qed.

(** C6, as the code has it.  A ledger entry is the list of the addresses in
    the order their acks arrived.  An ack for a known sequence number is
    appended even when its sender is already in the entry: the members stay
    the same, the length grows by one, and since the quorum test compares
    the length with the roster size, the next evaluation of the move finds
    a quorum as soon as the entry was as long as the roster. *)
Theorem HandleReceivedAck_counts_repeats n addr seq acks :
  Acks.ACKSReceived n !! seq = Some acks →
  let n' := (Acks.HandleReceivedAck n addr seq).2 in
  Acks.ACKSReceived n' !! seq = Some (acks ++ [addr])
  ∧ Acks.ack_count n' seq = Datatypes.S (Acks.ack_count n seq)
  ∧ (addr ∈ acks → ∀ a, a ∈ acks ++ [addr] ↔ a ∈ acks)
  ∧ (∀ m c, Acks.Seq m = seq → Acks.Coord_ m = Some c →
            Acks.roster_size n = length acks →
       Acks.locs (Acks.ManageAcks_case n m).2 = Acks.locs n
       ∧ Acks.locs (Acks.ManageAcks_case n' m).2
         = <[Acks.Identifier (Acks.PlayerNode n) := c]> (Acks.locs n)).
Proof.
  intros Hacks. cbv zeta. unfold Acks.HandleReceivedAck. rewrite Hacks. simpl.
  split; [by rewrite lookup_insert_eq|]. split.
  { unfold Acks.ack_count. simpl. rewrite lookup_insert_eq, Hacks. simpl.
    rewrite length_app. simpl. lia. }
  split.
  { intros Hin a. rewrite elem_of_app, list_elem_of_singleton.
    split; [intros [?| ->]; done|by left]. }
  intros m c <- Hc Hsize. split.
  - apply ManageAcks_case_below_quorum.
    unfold Acks.ack_count. rewrite Hacks. simpl. lia.
  - erewrite ManageAcks_case_quorum; [done| |..].
    + simpl. by rewrite lookup_insert_eq.
    + unfold Acks.roster_size in *. simpl. rewrite length_app. simpl. lia.
    + done.
Qed.



End AcksFacts.

Section AcksLockstepFacts.
Context `{Externals} `{Acks.Envelope}.
Implicit Types (n : Acks.NodeCommInterface) (identifier : string).

Lemma Acks_CheckMoveCommitAgainstMove_lookup n identifier (move : Coord) :
  Acks.CheckMoveCommitAgainstMove n identifier move = true
  ↔ Acks.MoveCommits n !! identifier
    = Some (EncodeToString (Acks.CalculateHash move identifier)).
Proof.
  unfold Acks.CheckMoveCommitAgainstMove. rewrite existsb_exists. split.
  - intros [[i mc] [Hin Hb]]. apply andb_prop in Hb as [Hmc Hi].
    apply bool_decide_eq_true in Hmc, Hi. subst.
    by apply list_elem_of_In, elem_of_map_to_list in Hin.
  - intros Hl. eexists (identifier, _). split.
    + apply list_elem_of_In, elem_of_map_to_list. exact Hl.
    + by rewrite !bool_decide_eq_true_2.
Qed.

Lemma Acks_HandleReceivedMoveL_consumes n identifier (move : option Coord) :
  Acks.MoveCommits (Acks.HandleReceivedMoveL n identifier move).2
  = delete identifier (Acks.MoveCommits n).
Proof.
  unfold Acks.HandleReceivedMoveL, defer. simpl.
  destruct move as [mv|]; [|done].
  destruct (Acks.CheckMoveCommitAgainstMove n identifier mv); [|done].
  by destruct (Acks.CheckMoveIsValid n mv).
Qed.

Lemma Acks_HandleReceivedMoveL_move n identifier (mv : Coord) :
  let r := Acks.HandleReceivedMoveL n identifier (Some mv) in
  let stored :=
    Acks.MoveCommits n !! identifier
    = Some (EncodeToString (Acks.CalculateHash mv identifier)) in
  (stored → Acks.CheckMoveIsValid n mv = None →
     r = (Return None,
          Acks.set_MoveCommits (delete identifier)
            (Acks.set_PlayerLocs <[identifier := mv]> n)))
  ∧ (stored → ∀ err, Acks.CheckMoveIsValid n mv = Some err →
     r = (Return (Some err), Acks.set_MoveCommits (delete identifier) n))
  ∧ (¬ stored →
     r = (Return (Some (InvalidMoveError (coord_text mv))),
          Acks.set_MoveCommits (delete identifier) n)).
Proof.
  cbv zeta. unfold Acks.HandleReceivedMoveL, defer.
  rewrite <- Acks_CheckMoveCommitAgainstMove_lookup.
  destruct (Acks.CheckMoveCommitAgainstMove n identifier mv).
  - split; [|split].
    + by intros _ ->.
    + by intros _ err ->.
    + by intros [].
  - split; [|split]; [discriminate|discriminate|done].
Qed.

End AcksLockstepFacts.

(* ===================================================================== *)
(** ** Properties of both snapshots *)



Section BothSnapshots.
Context `{Externals} `{Lockstep.Envelope} `{Acks.Envelope}.

(** The lockstep handler called with a nil move panics in both snapshots,
    after which the deferred delete has run. *)
Lemma lockstep_handler_on_nil (nl : Lockstep.NodeCommInterface)
    (na : Acks.NodeCommInterface) (identifier : string) :
  Lockstep.HandleReceivedMoveL nl identifier None
  = (Panic, Lockstep.set_MoveCommits (delete identifier) nl)
  ∧ Acks.HandleReceivedMoveL na identifier None
    = (Panic, Acks.set_MoveCommits (delete identifier) na).
Proof. done. Qed.


(** C10.  [SendMoveToNodes] with a nil move returns at once in both
    snapshots: the node is unchanged, in particular the sequence number,
    the outbound queue and the queue of pending moves. *)
Theorem SendMoveToNodes_nil_is_noop
    (nl : Lockstep.NodeCommInterface) (na : Acks.NodeCommInterface) :
  let rl := Lockstep.SendMoveToNodes nl None in
  let ra := Acks.SendMoveToNodes na None in
  rl = (Return None, nl)
  ∧ ra = (Return None, na)
  ∧ Acks.sequenceNumber ra.2 = Acks.sequenceNumber na
  ∧ Acks.MessagesToSend ra.2 = Acks.MessagesToSend na
  ∧ Acks.MovesToSend ra.2 = Acks.MovesToSend na
  ∧ Lockstep.MessagesToSend rl.2 = Lockstep.MessagesToSend nl.
Proof. done. Qed.

End BothSnapshots.

(* ===================================================================== *)
(** ** The handlers on the sample game *)

Lemma ManageAcks_applies_only_above_roster_witness :
  let n := Sample.acks_node in
  let n' := (Acks.HandleReceivedAck n Sample.peer 1).2 in
  ((Acks.ack_count n 1 ≤ Acks.roster_size n)%nat
   ∧ Acks.locs (Acks.ManageAcks_case n Sample.pending).2 = Acks.locs n)
  ∧ ((Acks.roster_size n' < Acks.ack_count n' 1)%nat
     ∧ Acks.locs (Acks.ManageAcks_case n' Sample.pending).2
       = <["1"%string := mkCoord 1 0]> (Acks.locs n')).
Proof.
  cbv zeta. split.
  - assert (Hle : (Acks.ack_count Sample.acks_node 1
                   ≤ Acks.roster_size Sample.acks_node)%nat)
      by (vm_compute; lia).
    split; [exact Hle|].
    exact (proj1 (ManageAcks_applies_only_above_roster
                    Sample.acks_node Sample.pending) Hle).
  - set (n' := (Acks.HandleReceivedAck Sample.acks_node Sample.peer 1).2).
    assert (Hlt : (Acks.roster_size n' < Acks.ack_count n' 1)%nat)
      by (vm_compute; lia).
    split; [exact Hlt|].
    exact (proj2 (proj1 (proj2 (ManageAcks_applies_only_above_roster
                                  n' Sample.pending))
                    (mkCoord 1 0) Hlt eq_refl)).
Defined.



Lemma HandleReceivedAck_unknown_iff_absent_witness :
  (Acks.ACKSReceived Sample.acks_node !! 2 = None
   ∧ (Acks.HandleReceivedAck Sample.acks_node Sample.peer 2).2 = Sample.acks_node)
  ∧ (Acks.ACKSReceived Sample.acks_node !! 1 = Some [Sample.peer]
     ∧ Acks.HandleReceivedAck Sample.acks_node "127.0.0.1:9003" 1
       = (Return None,
          Acks.set_ACKSReceived
            <[1 := [Sample.peer] ++ ["127.0.0.1:9003"%string]]> Sample.acks_node)).
Proof.
  assert (Hnone : Acks.ACKSReceived Sample.acks_node !! 2 = None)
    by (vm_compute; reflexivity).
  assert (Hsome : Acks.ACKSReceived Sample.acks_node !! 1 = Some [Sample.peer])
    by (vm_compute; reflexivity).
  split; (split; [assumption|]).
  - exact (proj1 (proj1 (proj2 (HandleReceivedAck_unknown_iff_absent
                                  Sample.acks_node Sample.peer 2)) Hnone)).
  - exact (proj1 (proj2 (proj2 (HandleReceivedAck_unknown_iff_absent
                                  Sample.acks_node "127.0.0.1:9003" 1))
                    [Sample.peer] Hsome)).
Defined.

Lemma HandleReceivedAck_counts_repeats_witness :
  Acks.ACKSReceived Sample.acks_node !! 1 = Some [Sample.peer]
  ∧ Acks.ACKSReceived (Acks.HandleReceivedAck Sample.acks_node Sample.peer 1).2 !! 1
    = Some ([Sample.peer] ++ [Sample.peer]).
Proof.
  assert (Hsome : Acks.ACKSReceived Sample.acks_node !! 1 = Some [Sample.peer])
    by (vm_compute; reflexivity).
  split; [exact Hsome|].
  exact (proj1 (HandleReceivedAck_counts_repeats
                  Sample.acks_node Sample.peer 1 [Sample.peer] Hsome)).
Defined.

(** C6 as stated fails: the roster has one peer and the ledger one ack from
    it, so the pending move is not applied; after a second ack from the same
    peer the entry holds the peer twice and the move is applied. *)
Lemma repeated_ack_reaches_quorum :
  let n := Sample.acks_node in
  let n' := (Acks.HandleReceivedAck n Sample.peer 1).2 in
  Acks.ACKSReceived n !! 1 = Some [Sample.peer]
  ∧ Acks.roster_size n = 1%nat
  ∧ Acks.locs (Acks.ManageAcks_case n Sample.pending).2 !! "1"
    = Some (mkCoord 0 0)
  ∧ Acks.ACKSReceived n' !! 1 = Some [Sample.peer; Sample.peer]
  ∧ Acks.roster_size n' = 1%nat
  ∧ Acks.locs (Acks.ManageAcks_case n' Sample.pending).2 !! "1"
    = Some (mkCoord 1 0).
Proof. vm_compute. repeat split; reflexivity. Qed.




(** C3 at a move message from the prey that carries no move.  In both
    snapshots the handler does not return an invalid-move error: it panics
    on the nil pointer while building the error text.  The deferred delete
    has removed the prey's commit and the locations are untouched. *)
Theorem HandleReceivedMoveL_nil_move_panics :
  let rl := Lockstep.HandleReceivedMoveL Sample.node "prey" None in
  let ra := Acks.HandleReceivedMoveL Sample.acks_node "prey" None in
  rl.1 = Panic
  ∧ ra.1 = Panic
  ∧ (∀ msg, rl.1 ≠ Return (Some (InvalidMoveError msg)))
  ∧ (∀ msg, ra.1 ≠ Return (Some (InvalidMoveError msg)))
  ∧ Lockstep.MoveCommits Sample.node !! "prey" = Some Sample.prey_commit
  ∧ Lockstep.MoveCommits rl.2 !! "prey" = None
  ∧ Acks.MoveCommits ra.2 !! "prey" = None
  ∧ Lockstep.PlayerLocs (Lockstep.GameState (Lockstep.PlayerNode rl.2))
    = Lockstep.PlayerLocs (Lockstep.GameState (Lockstep.PlayerNode Sample.node))
  ∧ Acks.locs ra.2 = Acks.locs Sample.acks_node.
Proof.
  cbv zeta. repeat split; try (intros msg Heq; discriminate Heq);
    vm_compute; reflexivity.
Qed.

(* ===================================================================== *)
(** ** Hex texts of hashes *)

Lemma hex_byte (b : Byte.byte) :
  hexvalue (hexdigit (Z_of_byte b / 16)) = Some (Z_of_byte b / 16)
  ∧ hexvalue (hexdigit (Z_of_byte b mod 16)) = Some (Z_of_byte b mod 16)
  ∧ byte_of_Z (16 * (Z_of_byte b / 16) + Z_of_byte b mod 16) = b.
Proof. destruct b; vm_compute; auto. Qed.

Lemma DecodeString_EncodeToString (b : bytes) :
  DecodeString (EncodeToString b) = Some b.
Proof.
  induction b as [|x b IH]; [reflexivity|].
  cbn [EncodeToString DecodeString].
  destruct (hex_byte x) as (-> & -> & ->). by rewrite IH.
Qed.

Lemma EncodeToString_inj (a b : bytes) :
  EncodeToString a = EncodeToString b → a = b.
Proof.
  intros Heq. apply (f_equal DecodeString) in Heq.
  rewrite !DecodeString_EncodeToString in Heq. by injection Heq.
Qed.

(* ===================================================================== *)
(** ** Commit and reveal in node-node-interface.go *)

Section CommitReveal.
Context `{Externals} `{Lockstep.Envelope}.
Implicit Types (n : Lockstep.NodeCommInterface) (identifier : string).

Lemma Lockstep_set_MoveCommits_id n (f : gmap string string → gmap string string) :
  f (Lockstep.MoveCommits n) = Lockstep.MoveCommits n →
  Lockstep.set_MoveCommits f n = n.
Proof. destruct n. unfold Lockstep.set_MoveCommits. simpl. by intros ->. Qed.

(** X1.  In both snapshots [CheckMoveCommitAgainstMove] answers true
    exactly when the commit stored under the identifier is the hex text of
    the hash of the move and the identifier; commits stored under other
    identifiers play no part. *)
Theorem CheckMoveCommitAgainstMove_iff_stored `{Acks.Envelope}
    n (na : Acks.NodeCommInterface) identifier (move : Coord) :
  (Lockstep.CheckMoveCommitAgainstMove n identifier move = true
   ↔ Lockstep.MoveCommits n !! identifier
     = Some (EncodeToString (MD5.Sum (hash_input move identifier))))
  ∧ (Acks.CheckMoveCommitAgainstMove na identifier move = true
     ↔ Acks.MoveCommits na !! identifier
       = Some (EncodeToString (MD5.Sum (hash_input move identifier)))).
Proof.
  split.
  - apply Lockstep_CheckMoveCommitAgainstMove_lookup.
  - apply Acks_CheckMoveCommitAgainstMove_lookup.
Qed.

(** The three ways a reveal can end after a fresh authentic commit. *)
Lemma commit_reveal_cases n identifier (mc : MoveCommit) (mv : Coord) :
  CheckAuthenticityOfMoveCommit (Some mc) = Some true →
  Lockstep.MoveCommits n !! identifier = None →
  let n1 := (Lockstep.HandleReceivedMoveCommit n identifier (Some mc)).2 in
  let r := Lockstep.HandleReceivedMoveL n1 identifier (Some mv) in
  let grid := Lockstep.GameConfig_Settings (Lockstep.PlayerNode n) in
  (MoveHash mc = Lockstep.CalculateHash n mv identifier →
   IsValidMove grid mv = true →
   r = (Return None, Lockstep.set_PlayerLocs <[identifier := mv]> n))
  ∧ (MoveHash mc = Lockstep.CalculateHash n mv identifier →
     IsValidMove grid mv = false →
     r = (Return (Some (InvalidMoveError (coord_text mv))), n))
  ∧ (MoveHash mc ≠ Lockstep.CalculateHash n mv identifier →
     r = (Return (Some (InvalidMoveError (coord_text mv))), n)).
Proof.
  intros Hauth Hfresh. cbv zeta.
  unfold Lockstep.HandleReceivedMoveCommit. rewrite Hauth, Hfresh. simpl.
  set (n1 := Lockstep.set_MoveCommits _ n).
  assert (Hback : Lockstep.set_MoveCommits (delete identifier) n1 = n).
  { subst n1. destruct n. unfold Lockstep.set_MoveCommits. simpl in *.
    by rewrite delete_insert_id. }
  assert (Hback' : Lockstep.set_MoveCommits (delete identifier)
                     (Lockstep.set_PlayerLocs <[identifier := mv]> n1)
                   = Lockstep.set_PlayerLocs <[identifier := mv]> n).
  { subst n1. destruct n.
    unfold Lockstep.set_MoveCommits, Lockstep.set_PlayerLocs. simpl in *.
    by rewrite delete_insert_id. }
  destruct (Lockstep_HandleReceivedMoveL_move n1 identifier mv)
    as (Hok & Hbad & Hmiss).
  assert (Hstored : MoveHash mc = Lockstep.CalculateHash n mv identifier
          ↔ Lockstep.MoveCommits n1 !! identifier
            = Some (EncodeToString (Lockstep.CalculateHash n1 mv identifier))).
  { subst n1. simpl. rewrite lookup_insert_eq. split.
    - by intros ->.
    - intros Heq. injection Heq as Heq. by apply EncodeToString_inj. }
  split; [|split].
  - intros Hhash Hvalid. rewrite Hok, Hback'; [done|by apply Hstored|].
    unfold Lockstep.CheckMoveIsValid. subst n1. simpl. by rewrite Hvalid.
  - intros Hhash Hvalid.
    rewrite (Hbad (proj1 Hstored Hhash) (InvalidMoveError (coord_text mv))).
    + by rewrite Hback.
    + unfold Lockstep.CheckMoveIsValid. subst n1. simpl. by rewrite Hvalid.
  - intros Hhash. rewrite Hmiss, Hback; [done|].
    intros Hst. by apply Hhash, Hstored.
Qed.

(** X2.  Commit, then reveal.  After an authentic commit has been stored
    for an identifier that had none, the reveal of a move for that
    identifier is applied exactly when the committed hash is the hash of the
    move and the grid accepts the move; a reveal with another hash or a move
    the grid refuses returns the invalid-move error and leaves the locations
    as they were.  In all three cases the node ends without a commit for the
    identifier. *)
Theorem commit_then_reveal n identifier (mc : MoveCommit) (mv : Coord) :
  CheckAuthenticityOfMoveCommit (Some mc) = Some true →
  Lockstep.MoveCommits n !! identifier = None →
  let n1 := (Lockstep.HandleReceivedMoveCommit n identifier (Some mc)).2 in
  let r := Lockstep.HandleReceivedMoveL n1 identifier (Some mv) in
  let grid := Lockstep.GameConfig_Settings (Lockstep.PlayerNode n) in
  (MoveHash mc = Lockstep.CalculateHash n mv identifier →
   IsValidMove grid mv = true →
   r = (Return None, Lockstep.set_PlayerLocs <[identifier := mv]> n))
  ∧ (MoveHash mc = Lockstep.CalculateHash n mv identifier →
     IsValidMove grid mv = false →
     r = (Return (Some (InvalidMoveError (coord_text mv))), n))
  ∧ (MoveHash mc ≠ Lockstep.CalculateHash n mv identifier →
     r = (Return (Some (InvalidMoveError (coord_text mv))), n)).
Proof. apply commit_reveal_cases. Qed.

(** X3.  A commit is good for one reveal.  Whatever the lockstep handler
    was called with for an identifier, a further reveal for that identifier
    returns the invalid-move error and leaves the node as it is, until a
    new commit is stored. *)
Theorem reveal_consumes_commit n identifier (move : option Coord) (mv' : Coord) :
  let n1 := (Lockstep.HandleReceivedMoveL n identifier move).2 in
  Lockstep.HandleReceivedMoveL n1 identifier (Some mv')
  = (Return (Some (InvalidMoveError (coord_text mv'))), n1).
Proof.
  cbv zeta. set (n1 := (Lockstep.HandleReceivedMoveL n identifier move).2).
  assert (Hgone : Lockstep.MoveCommits n1 !! identifier = None).
  { subst n1. rewrite Lockstep_HandleReceivedMoveL_consumes.
    apply lookup_delete_eq. }
  destruct (Lockstep_HandleReceivedMoveL_move n1 identifier mv')
    as (_ & _ & Hmiss).
  rewrite Hmiss by (by rewrite Hgone).
  rewrite Lockstep_set_MoveCommits_id; [done|]. by apply delete_id.
Qed.

(** X4.  The commit does not bind the coordinate.  When two coordinates
    have the same concatenated decimal texts, an authentic commit to the
    first lets the reveal of the second through: it is applied if the grid
    accepts it. *)
Theorem reveal_of_other_coordinate_accepted n identifier
    (mc : MoveCommit) (c1 c2 : Coord) :
  CheckAuthenticityOfMoveCommit (Some mc) = Some true →
  Lockstep.MoveCommits n !! identifier = None →
  MoveHash mc = Lockstep.CalculateHash n c1 identifier →
  decimal_text c1 = decimal_text c2 →
  IsValidMove (Lockstep.GameConfig_Settings (Lockstep.PlayerNode n)) c2 = true →
  let n1 := (Lockstep.HandleReceivedMoveCommit n identifier (Some mc)).2 in
  Lockstep.HandleReceivedMoveL n1 identifier (Some c2)
  = (Return None, Lockstep.set_PlayerLocs <[identifier := c2]> n).
Proof.
  intros Hauth Hfresh Hhash Htext Hvalid. cbv zeta.
  apply (commit_reveal_cases n identifier mc c2 Hauth Hfresh); [|done].
  rewrite Hhash. unfold Lockstep.CalculateHash. f_equal.
  by apply hash_input_eq_iff.
Qed.

End CommitReveal.

Lemma reveal_of_other_coordinate_accepted_witness :
  let n := Sample.node in
  let n1 :=
    (Lockstep.HandleReceivedMoveCommit n "7" (Some PeersSample.commit_1_23)).2 in
  decimal_text (mkCoord 1 23) = decimal_text (mkCoord 12 3)
  ∧ Lockstep.HandleReceivedMoveL n1 "7" (Some (mkCoord 12 3))
    = (Return None, Lockstep.set_PlayerLocs <["7"%string := mkCoord 12 3]> n).
Proof.
  cbv zeta.
  assert (Ht : decimal_text (mkCoord 1 23) = decimal_text (mkCoord 12 3))
    by (vm_compute; reflexivity).
  split; [exact Ht|].
  apply (reveal_of_other_coordinate_accepted Sample.node "7"
           PeersSample.commit_1_23 (mkCoord 1 23) (mkCoord 12 3)).
  - vm_compute; reflexivity.
  - vm_compute; reflexivity.
  - vm_compute; reflexivity.
  - exact Ht.
  - vm_compute; reflexivity.
Defined.

Lemma commit_then_reveal_witness :
  let n := Sample.node in
  let n1 := (Lockstep.HandleReceivedMoveCommit n "7" (Some Sample.commit)).2 in
  Lockstep.HandleReceivedMoveL n1 "7" (Some (mkCoord 2 3))
  = (Return None, Lockstep.set_PlayerLocs <["7"%string := mkCoord 2 3]> n)
  ∧ Lockstep.HandleReceivedMoveL n1 "7" (Some (mkCoord 2 4))
    = (Return (Some (InvalidMoveError (coord_text (mkCoord 2 4)))), n).
Proof.
  cbv zeta.
  assert (Hauth : CheckAuthenticityOfMoveCommit (Some Sample.commit) = Some true)
    by (vm_compute; reflexivity).
  assert (Hfresh : Lockstep.MoveCommits Sample.node !! "7" = None)
    by (vm_compute; reflexivity).
  split.
  - apply (proj1 (commit_then_reveal Sample.node "7" Sample.commit (mkCoord 2 3)
                    Hauth Hfresh)); vm_compute; reflexivity.
  - apply (proj2 (proj2 (commit_then_reveal Sample.node "7" Sample.commit
                           (mkCoord 2 4) Hauth Hfresh))).
    intros Heq. vm_compute in Heq. discriminate Heq.
Defined.

(* ===================================================================== *)
(** ** The quorum routine, end to end *)

Lemma filter_all {A : Type} (P : A → Prop) `{!∀ x, Decision (P x)} (l : list A) :
  (∀ x, x ∈ l → P x) → filter P l = l.
Proof.
  induction l as [|a l IH]; intros Hall; [done|].
  rewrite filter_cons, decide_True by (apply Hall; left).
  f_equal. apply IH. intros x Hx. apply Hall. by right.
Qed.

Lemma NoDup_filter_keep {A : Type} (P : A → Prop) `{!∀ x, Decision (P x)}
    (l : list A) :
  NoDup l → NoDup (filter P l).
Proof.
  induction 1 as [|x l Hnotin Hnd IH]; [constructor|].
  rewrite filter_cons. case_decide; [|done].
  constructor; [|done]. rewrite list_elem_of_filter. tauto.
Qed.

Section QuorumFacts.
Context `{Externals} `{Acks.Envelope}.
Implicit Types (n : Acks.NodeCommInterface) (m : Acks.PendingMoveUpdates).

(** X5.  When a move reaches its quorum, the peers queued for removal are
    exactly the roster keys that do not occur among the recorded acks, each
    once; the roster itself is not touched by the routine, and the ledger
    entry of the move is deleted.  In particular, when no roster key occurs
    among the acks the whole roster is queued for removal. *)
Theorem ManageAcks_evicts_keys_without_ack n m (acks : list string) (c : Coord) :
  Acks.ACKSReceived n !! Acks.Seq m = Some acks →
  (Acks.roster_size n < length acks)%nat →
  Acks.Coord_ m = Some c →
  let r := Acks.ManageAcks_case n m in
  ∃ evicted : list string,
    Acks.NodesToDelete r.2 = Acks.NodesToDelete n ++ evicted
    ∧ NoDup evicted
    ∧ (∀ k, k ∈ evicted ↔ is_Some (Acks.OtherNodes n !! k) ∧ k ∉ acks)
    ∧ ((∀ k, is_Some (Acks.OtherNodes n !! k) → k ∉ acks) →
       length evicted = Acks.roster_size n)
    ∧ Acks.OtherNodes r.2 = Acks.OtherNodes n
    ∧ Acks.ACKSReceived r.2 = delete (Acks.Seq m) (Acks.ACKSReceived n).
Proof.
  intros Hacks Hlt Hc. cbv zeta.
  rewrite (ManageAcks_case_quorum n m acks c Hacks Hlt Hc). simpl.
  set (keys := (map_to_list (Acks.OtherNodes n)).*1).
  assert (Hnd : NoDup keys) by apply NoDup_fst_map_to_list.
  assert (Hkeys : ∀ k, k ∈ keys ↔ is_Some (Acks.OtherNodes n !! k)).
  { intros k. subst keys. rewrite list_elem_of_fmap. split.
    - intros [[k' v] [-> Hin]]. apply elem_of_map_to_list in Hin. by exists v.
    - intros [v Hv]. exists (k, v). split; [done|]. by apply elem_of_map_to_list. }
  exists (filter (λ addr, addr ∉ acks) keys). split; [done|]. split.
  { by apply NoDup_filter_keep. }
  split.
  { intros k. rewrite list_elem_of_filter, Hkeys. tauto. }
  split; [|done].
  intros Hall. unfold Acks.roster_size.
  rewrite <- (length_map_to_list (Acks.OtherNodes n)).
  rewrite <- (length_fmap fst (map_to_list (Acks.OtherNodes n))).
  fold keys. f_equal. apply filter_all.
  intros k Hk. by apply Hall, Hkeys.
Qed.

End QuorumFacts.

Section SendFacts.
Context `{Externals} `{Acks.Envelope}.
Implicit Types (n : Acks.NodeCommInterface) (m : Acks.PendingMoveUpdates).

(** X6.  A move handed to [SendMoveToNodes] on a node with no pending move
    and no ledger entry for the next sequence number is broadcast and then
    dropped: the sequence number advances by one (modulo 2^64), one message
    for all peers is queued, and the next turn of [ManageAcks] takes the
    pending move off the queue without applying it, retrying it or touching
    the ledger; an ack for that sequence number is answered with the
    unknown-sequence error. *)
Theorem sent_move_without_entry_is_dropped n (mv : Coord) :
  Acks.MovesToSend n = [] →
  Acks.ACKSReceived n !! wrap_uint64 (Acks.sequenceNumber n + 1) = None →
  let n1 := (Acks.SendMoveToNodes n (Some mv)).2 in
  let n2 := Acks.set_MovesToSend (λ _, []) n1 in
  Acks.sequenceNumber n1 = wrap_uint64 (Acks.sequenceNumber n + 1)
  ∧ Acks.MovesToSend n1
    = [Acks.mkPendingMoveUpdates (Acks.sequenceNumber n1) (Some mv) 0]
  ∧ (∃ toSend, Acks.MessagesToSend n1
               = Acks.MessagesToSend n ++ [Acks.mkPendingMessage "all" toSend])
  ∧ Acks.ManageAcks_turn n1 = Some (Return None, n2)
  ∧ Acks.locs n2 = Acks.locs n
  ∧ Acks.ACKSReceived n2 = Acks.ACKSReceived n
  ∧ Acks.Slept n2 = Acks.Slept n
  ∧ ∀ addr, Acks.HandleReceivedAck n2 addr (Acks.sequenceNumber n2)
            = (Return (Some (UnknownSequenceError (Acks.sequenceNumber n2))), n2).
Proof.
  intros Hq Hnone. cbv zeta. unfold Acks.SendMoveToNodes.
  remember (wrap_uint64 (Acks.sequenceNumber n + 1)) as s eqn:Hs.
  unfold Acks.set_sequenceNumber. simpl. rewrite <- Hs.
  destruct (Acks.sendMessage _ _) as [toSend log] eqn:Hsend. simpl.
  rewrite Hq. simpl.
  split; [done|]. split; [done|]. split; [by exists toSend|].
  unfold Acks.ManageAcks_turn, Acks.ManageAcks_case. simpl. rewrite Hnone.
  split; [done|]. split; [done|]. split; [done|]. split; [done|].
  intros addr. unfold Acks.HandleReceivedAck. simpl. by rewrite Hnone.
Qed.

End SendFacts.

(* ===================================================================== *)
(** ** The roster routine *)

Section RosterFacts.
Context `{Externals} `{Acks.Envelope} `{Peers.Transport}.
Implicit Types (w : Peers.World) (pm : Acks.PendingMessage).

Lemma World_eta w :
  Peers.mkWorld _ _ (Peers.node w) (Peers.Config_Identifier w)
    (Peers.NodesToAdd w) (Peers.Written w) = w.
Proof. by destruct w. Qed.

Lemma broadcast_written (l : list (string * UDPConn)) (toSend : bytes) w :
  foldl (λ w kv, Peers.Write kv.2 toSend w) w l
  = Peers.mkWorld _ _ (Peers.node w) (Peers.Config_Identifier w)
      (Peers.NodesToAdd w)
      (Peers.Written w ++ ((λ kv, (kv.2, toSend)) <$> l)).
Proof.
  revert w. induction l as [|kv l IH]; intros w; simpl.
  - rewrite app_nil_r. by rewrite World_eta.
  - rewrite IH. unfold Peers.Write. simpl. by rewrite <- app_assoc.
Qed.

(** X7.  What the roster routine writes for one queued message.  A message
    for a single recipient is written once, on that recipient's connection,
    when the recipient is in the roster, and is dropped without a write when
    it is not.  A message for ["all"] is written once on the connection of
    every roster entry, so the number of writes is the size of the roster
    (none on an empty roster); a peer stored under the key ["all"] gets it
    like everybody else.  The node is not changed. *)
Theorem ManageOtherNodes_send_writes w pm :
  let w' := Peers.ManageOtherNodes_send w pm in
  let roster := Acks.OtherNodes (Peers.node w) in
  Peers.node w' = Peers.node w
  ∧ (Acks.Recipient pm ≠ "all"%string →
     ∀ conn, roster !! Acks.Recipient pm = Some conn →
     Peers.Written w' = Peers.Written w ++ [(conn, Acks.Message pm)])
  ∧ (Acks.Recipient pm ≠ "all"%string →
     roster !! Acks.Recipient pm = None → w' = w)
  ∧ (Acks.Recipient pm = "all"%string →
     Peers.Written w'
     = Peers.Written w ++ ((λ kv, (kv.2, Acks.Message pm)) <$> map_to_list roster)
     ∧ length (Peers.Written w') = (length (Peers.Written w) + size roster)%nat
     ∧ ∀ k conn, roster !! k = Some conn →
                 (conn, Acks.Message pm) ∈ Peers.Written w').
Proof.
  cbv zeta. unfold Peers.ManageOtherNodes_send, Peers.sendMessageToNodes.
  rewrite broadcast_written.
  destruct (String.eqb_spec (Acks.Recipient pm) "all") as [Hall|Hne]; simpl.
  - split; [done|]. split; [done|]. split; [done|]. intros _.
    split; [done|]. split.
    + rewrite length_app, length_fmap, length_map_to_list. done.
    + intros k conn Hk. apply elem_of_app. right.
      apply list_elem_of_fmap. exists (k, conn). split; [done|].
      by apply elem_of_map_to_list.
  - destruct (Acks.OtherNodes (Peers.node w) !! Acks.Recipient pm) as [conn|]
      eqn:Hr.
    + split; [done|]. split; [by intros _ ? [= <-]|]. split; [done|done].
    + split; [done|]. split; [done|]. split; [done|done].
Qed.


Lemma lookup_foldl_delete (q : list string) (r : gmap string UDPConn) (k : string) :
  foldl (λ r d, delete d r) r q !! k
  = if decide (k ∈ q) then None else r !! k.
Proof.
  revert r. induction q as [|d q IH]; intros r; simpl.
  - destruct (decide (k ∈ [])) as [Hin|]; [by apply elem_of_nil in Hin|done].
  - rewrite IH.
    destruct (decide (k ∈ q)) as [Hin|Hnin],
             (decide (k ∈ d :: q)) as [Hin'|Hnin']; try done.
    + exfalso. apply Hnin'. by right.
    + apply elem_of_cons in Hin' as [->|?]; [apply lookup_delete_eq|done].
    + apply lookup_delete_ne. intros ->. apply Hnin'. left.
Qed.

(** Serving the removals queue empties it and deletes its keys. *)
Lemma serve_deletes (q : list string) (turns : nat) w :
  Acks.NodesToDelete (Peers.node w) = q →
  (length q ≤ turns)%nat →
  let w' := Peers.serve Peers.FromNodesToDelete turns w in
  Acks.OtherNodes (Peers.node w')
  = foldl (λ r d, delete d r) (Acks.OtherNodes (Peers.node w)) q
  ∧ Acks.NodesToDelete (Peers.node w') = []
  ∧ Acks.locs (Peers.node w') = Acks.locs (Peers.node w)
  ∧ Acks.ACKSReceived (Peers.node w') = Acks.ACKSReceived (Peers.node w)
  ∧ Peers.Written w' = Peers.Written w.
Proof.
  cbv zeta. revert turns w.
  induction q as [|d q IH]; intros turns w Hq Hlen.
  - destruct turns as [|turns]; simpl; [by rewrite Hq|].
    unfold Peers.ManageOtherNodes_turn. by rewrite Hq.
  - destruct turns as [|turns]; simpl in Hlen; [lia|]. simpl.
    unfold Peers.ManageOtherNodes_turn. rewrite Hq.
    set (w1 := Peers.ManageOtherNodes_delete _ d).
    destruct (IH turns w1) as (Hr & Hd & Hl & Ha & Hw); [done|lia|].
    by rewrite Hr, Hd, Hl, Ha, Hw.
Qed.

(** X8.  Quorum, then eviction.  When a move reaches its quorum on a node
    with no removals pending and the roster routine then serves the removals
    queue, the roster keeps exactly the entries whose key occurs among the
    recorded acks, and the queue is empty again.  When no roster key occurs
    among the acks, the roster ends empty. *)
Theorem quorum_then_eviction w (m : Acks.PendingMoveUpdates)
    (acks : list string) (c : Coord) :
  let n := Peers.node w in
  Acks.NodesToDelete n = [] →
  Acks.ACKSReceived n !! Acks.Seq m = Some acks →
  (Acks.roster_size n < length acks)%nat →
  Acks.Coord_ m = Some c →
  let w1 := (Peers.on_node (Acks.ManageAcks_case n m) w).2 in
  let w2 := Peers.serve Peers.FromNodesToDelete (Acks.roster_size n) w1 in
  (∀ k, Acks.OtherNodes (Peers.node w2) !! k
        = if decide (k ∈ acks) then Acks.OtherNodes n !! k else None)
  ∧ Acks.NodesToDelete (Peers.node w2) = []
  ∧ Acks.locs (Peers.node w2) = <[Acks.Identifier (Acks.PlayerNode n) := c]> (Acks.locs n)
  ∧ ((∀ k, is_Some (Acks.OtherNodes n !! k) → k ∉ acks) →
     Acks.OtherNodes (Peers.node w2) = ∅).
Proof.
  cbv zeta. intros Hq Hacks Hlt Hc.
  rewrite (ManageAcks_case_quorum _ m acks c Hacks Hlt Hc).
  set (keys := (map_to_list (Acks.OtherNodes (Peers.node w))).*1).
  set (evicted := filter (λ addr, addr ∉ acks) keys).
  match goal with |- context [Peers.serve _ _ ?x] => set (w1 := x) end.
  assert (Hkeys : ∀ k, k ∈ keys ↔ is_Some (Acks.OtherNodes (Peers.node w) !! k)).
  { intros k. subst keys. rewrite list_elem_of_fmap. split.
    - intros [[k' v] [-> Hin]]. apply elem_of_map_to_list in Hin. by exists v.
    - intros [v Hv]. exists (k, v). split; [done|]. by apply elem_of_map_to_list. }
  assert (Hlen : (length evicted ≤ Acks.roster_size (Peers.node w))%nat).
  { unfold Acks.roster_size.
    rewrite <- (length_map_to_list (Acks.OtherNodes (Peers.node w))).
    rewrite <- (length_fmap fst (map_to_list (Acks.OtherNodes (Peers.node w)))).
    apply length_filter. }
  destruct (serve_deletes evicted (Acks.roster_size (Peers.node w)) w1)
    as (Hr & Hd & Hl & _ & _).
  { subst w1. simpl. by rewrite Hq. }
  { exact Hlen. }
  assert (Hlook : ∀ k,
    Acks.OtherNodes
      (Peers.node (Peers.serve Peers.FromNodesToDelete
                     (Acks.roster_size (Peers.node w)) w1)) !! k
    = if decide (k ∈ acks) then Acks.OtherNodes (Peers.node w) !! k else None).
  { intros k. rewrite Hr, lookup_foldl_delete. subst w1. simpl.
    destruct (decide (k ∈ evicted)) as [Hin|Hnin].
    - apply list_elem_of_filter in Hin as [Hna _]. by rewrite decide_False.
    - destruct (decide (k ∈ acks)) as [|Hna]; [done|].
      destruct (Acks.OtherNodes (Peers.node w) !! k) as [v|] eqn:Hk; [|done].
      exfalso. apply Hnin. apply list_elem_of_filter. split; [done|].
      apply Hkeys. by exists v. }
  split; [exact Hlook|]. split; [exact Hd|]. split.
  { rewrite Hl. subst w1. done. }
  intros Hall. apply map_eq. intros k. rewrite Hlook, lookup_empty.
  destruct (decide (k ∈ acks)) as [Hin|]; [|done].
  destruct (Acks.OtherNodes (Peers.node w) !! k) as [v|] eqn:Hk; [|done].
  exfalso. by apply (Hall k); [exists v|].
Qed.

End RosterFacts.

(* ===================================================================== *)
(** ** The listener *)

Section ListenerFacts.
Context `{Externals} `{Acks.Envelope} `{Peers.Transport}.
Implicit Types (w : Peers.World) (message : Acks.NodeMessage).

Lemma drop_error_outcome {St : Type} (r : outcome * St) :
  (Peers.drop_error r).1 = Return None ∨ (Peers.drop_error r).1 = Panic.
Proof. unfold Peers.drop_error. destruct r as [[e|] s]; simpl; auto. Qed.

(** X9.  The switch of the listener never hands an error on: it ends with
    nil or in a panic.  A message whose type is none of ["gameState"],
    ["moveCommit"], ["move"], ["connect"] and ["ack"] leaves the node and
    its queues as they are.  A ["gameState"], ["moveCommit"] or ["move"]
    message that lacks its payload makes the listener panic. *)
Theorem RunListener_switch_outcomes w message :
  let r := Peers.RunListener_switch w message in
  let t := Acks.MessageType message in
  (r.1 = Return None ∨ r.1 = Panic)
  ∧ (t ≠ "gameState"%string → t ≠ "moveCommit"%string → t ≠ "move"%string →
     t ≠ "connect"%string → t ≠ "ack"%string → r = (Return None, w))
  ∧ (t = "gameState"%string → Acks.msgGameState message = None → r.1 = Panic)
  ∧ (t = "moveCommit"%string → Acks.msgMoveCommit message = None → r.1 = Panic)
  ∧ (t = "move"%string → Acks.Move message = None → r.1 = Panic).
Proof.
  cbv zeta. unfold Peers.RunListener_switch. split; [|split; [|split; [|split]]].
  - destruct (String.eqb (Acks.MessageType message) "gameState");
      [apply drop_error_outcome|].
    destruct (String.eqb (Acks.MessageType message) "moveCommit");
      [apply drop_error_outcome|].
    destruct (String.eqb (Acks.MessageType message) "move").
    { destruct (String.eqb (Acks.msgIdentifier message) "prey");
        apply drop_error_outcome. }
    destruct (String.eqb (Acks.MessageType message) "connect");
      [apply drop_error_outcome|].
    destruct (String.eqb (Acks.MessageType message) "connected"); [by left|].
    destruct (String.eqb (Acks.MessageType message) "ack");
      [apply drop_error_outcome|by left].
  - intros Ha Hb Hc Hd He.
    apply String.eqb_neq in Ha, Hb, Hc, Hd, He. rewrite Ha, Hb, Hc, Hd, He.
    by destruct (String.eqb (Acks.MessageType message) "connected").
  - intros -> ->. done.
  - intros -> ->. done.
  - intros -> ->. simpl. by destruct (String.eqb _ "prey").
Qed.


(** X10.  The connect handshake.  A ["connect"] message whose address can
    be dialled puts the sender on the [NodesToAdd] queue, and when the roster
    routine serves that queue the roster maps the sender's identifier to the
    new connection, replacing any connection stored for it and leaving the
    other entries alone; nothing is written.  When the address cannot be
    dialled the listener panics. *)
Theorem connect_registers_peer w message :
  Acks.MessageType message = "connect"%string →
  Peers.NodesToAdd w = [] →
  let r := Peers.RunListener_switch w message in
  (∀ conn, Peers.DialUDP (Acks.Addr message) = Some conn →
     r.1 = Return None
     ∧ ∃ w2, Peers.ManageOtherNodes_turn Peers.FromNodesToAdd r.2 = Some w2
             ∧ Acks.OtherNodes (Peers.node w2)
               = <[Acks.msgIdentifier message := conn]>
                   (Acks.OtherNodes (Peers.node w))
             ∧ Peers.NodesToAdd w2 = []
             ∧ Peers.Written w2 = Peers.Written w)
  ∧ (Peers.DialUDP (Acks.Addr message) = None → r = (Panic, w)).
Proof.
  intros Ht Hq. cbv zeta.
  unfold Peers.RunListener_switch, Peers.HandleIncomingConnectionRequest,
    Peers.GetClientFromAddrString. rewrite Ht. simpl. split.
  - intros conn ->. simpl. split; [done|]. eexists. split.
    + unfold Peers.ManageOtherNodes_turn. simpl. rewrite Hq. simpl. reflexivity.
    + done.
  - by intros ->.
Qed.

(** X11.  A move is acked over the roster.  A ["move"] message from a
    sender other than ["prey"] and ["all"], with a coordinate that is in
    bounds and valid, received while no message is queued: the listener
    stores the coordinate for the sender, and the next turn of the roster
    routine on the outbound queue writes one datagram, the wrapped ["ack"]
    with the sequence number of the move, on the sender's connection when
    the sender is in the roster, and writes nothing when it is not. *)
Theorem move_is_acked_over_the_roster w message (mv : Coord) :
  let n := Peers.node w in
  let id := Acks.msgIdentifier message in
  let grid := Acks.GameConfig_Settings (Acks.PlayerNode n) in
  let ack :=
    Acks.mkNodeMessage (Acks.Identifier (Acks.PlayerNode n)) "ack" None None
      (Acks.msgSeq message) None (Acks.LocalAddr n) in
  Acks.MessageType message = "move"%string →
  id ≠ "prey"%string → id ≠ "all"%string →
  Acks.Move message = Some mv →
  IsInBounds grid mv = true → IsValidMove grid mv = true →
  Acks.MessagesToSend n = [] →
  let r := Peers.RunListener_switch w message in
  r.1 = Return None
  ∧ ∃ w2, Peers.ManageOtherNodes_turn Peers.FromMessagesToSend r.2 = Some w2
          ∧ Acks.MessagesToSend (Peers.node w2) = []
          ∧ Acks.locs (Peers.node w2) = <[id := mv]> (Acks.locs n)
          ∧ (∀ conn, Acks.OtherNodes n !! id = Some conn →
               Peers.Written w2
               = Peers.Written w ++ [(conn, (Acks.sendMessage (Acks.Log n) ack).1)])
          ∧ (Acks.OtherNodes n !! id = None → Peers.Written w2 = Peers.Written w).
Proof.
  cbv zeta. intros Ht Hprey Hall Hmv Hin Hvalid Hq.
  unfold Peers.RunListener_switch. rewrite Ht. simpl.
  apply String.eqb_neq in Hprey. rewrite Hprey, Hmv.
  unfold Acks.HandleReceivedMoveNL, Acks.CheckMoveIsValid.
  rewrite Hin, Hvalid. simpl. unfold Acks.SendACK. simpl.
  destruct (Acks.sendMessage _ _) as [toSend log] eqn:Hsend. simpl.
  split; [done|].
  unfold Peers.ManageOtherNodes_turn. simpl. rewrite Hq. simpl.
  eexists. split; [reflexivity|].
  unfold Peers.ManageOtherNodes_send. simpl.
  apply String.eqb_neq in Hall. rewrite Hall. simpl.
  destruct (Acks.OtherNodes (Peers.node w) !! Acks.msgIdentifier message)
    as [conn|]; simpl.
  - split; [done|]. split; [done|]. split; [|done].
    by intros ? [= <-].
  - done.
Qed.

End ListenerFacts.

(* ===================================================================== *)
(** ** The ledger over whole runs *)

Section LedgerFacts.
Context `{Externals} `{Acks.Envelope} `{Peers.Transport}.
Implicit Types (w : Peers.World) (n : Acks.NodeCommInterface).

Lemma drop_error_state {St : Type} (r : outcome * St) :
  (Peers.drop_error r).2 = r.2.
Proof. unfold Peers.drop_error. by destruct r as [[e|] s]. Qed.

Lemma ledger_ManageAcks_case n (m : Acks.PendingMoveUpdates) :
  dom (Acks.ACKSReceived (Acks.ManageAcks_case n m).2)
  ⊆ dom (Acks.ACKSReceived n).
Proof.
  destruct (Acks.ACKSReceived n !! Acks.Seq m) as [acks|] eqn:Hacks.
  - destruct (decide (Acks.roster_size n < length acks)%nat) as [Hlt|Hge].
    + destruct (Acks.Coord_ m) as [c|] eqn:Hc.
      * rewrite (ManageAcks_case_quorum n m acks c Hacks Hlt Hc). simpl.
        apply subseteq_dom, delete_subseteq.
      * unfold Acks.ManageAcks_case, Acks.roster_size in *. rewrite Hacks, Hc.
        apply Nat.ltb_lt in Hlt. by rewrite Hlt.
    + unfold Acks.ManageAcks_case, Acks.roster_size in *. rewrite Hacks.
      assert (Hf : (size (Acks.OtherNodes n) <? length acks)%nat = false)
        by (apply Nat.ltb_ge; lia).
      rewrite Hf. destruct (Acks.Rejected m <? Acks.REJECTION_MAX); simpl.
      * done.
      * apply subseteq_dom, delete_subseteq.
  - unfold Acks.ManageAcks_case. by rewrite Hacks.
Qed.

Lemma ledger_flood (l : list (string * UDPConn)) w :
  Acks.ACKSReceived
    (Peers.node (foldl (λ w kv, Peers.InitiateConnection w kv.2) w l))
  = Acks.ACKSReceived (Peers.node w).
Proof.
  revert w. induction l as [|kv l IH]; intros w; simpl; [done|].
  rewrite IH. unfold Peers.InitiateConnection.
  by destruct (Acks.sendMessage _ _).
Qed.

Lemma ledger_step (e : Peers.event) w :
  dom (Acks.ACKSReceived (Peers.node (Peers.step e w).2))
  ⊆ dom (Acks.ACKSReceived (Peers.node w)).
Proof.
  destruct e as [message|move|otherNodeId|moveCommit| | |c]; simpl.
  - unfold Peers.RunListener_switch.
    destruct (String.eqb (Acks.MessageType message) "gameState").
    { rewrite drop_error_state. simpl.
      by destruct (Acks.msgGameState message). }
    destruct (String.eqb (Acks.MessageType message) "moveCommit").
    { rewrite drop_error_state. simpl. unfold Acks.HandleReceivedMoveCommit.
      destruct (Acks.msgMoveCommit message) as [mc|]; [|done].
      destruct (CheckAuthenticityOfMoveCommit (Some mc)) as [[|]|]; try done.
      by destruct (Acks.MoveCommits (Peers.node w) !! _). }
    destruct (String.eqb (Acks.MessageType message) "move").
    { destruct (String.eqb (Acks.msgIdentifier message) "prey");
        rewrite drop_error_state; simpl.
      - unfold Acks.HandleReceivedMoveL, defer. simpl.
        destruct (Acks.Move message) as [mv|]; [|done].
        destruct (Acks.CheckMoveCommitAgainstMove _ _ _); [|done].
        by destruct (Acks.CheckMoveIsValid _ _).
      - unfold Acks.HandleReceivedMoveNL.
        destruct (Acks.Move message) as [mv|]; [|done].
        destruct (Acks.CheckMoveIsValid _ _); [done|]. simpl.
        unfold Acks.SendACK. by destruct (Acks.sendMessage _ _). }
    destruct (String.eqb (Acks.MessageType message) "connect").
    { rewrite drop_error_state. unfold Peers.HandleIncomingConnectionRequest.
      by destruct (Peers.GetClientFromAddrString _). }
    destruct (String.eqb (Acks.MessageType message) "connected"); [done|].
    destruct (String.eqb (Acks.MessageType message) "ack"); [|done].
    rewrite drop_error_state. simpl. unfold Acks.HandleReceivedAck.
    destruct (Acks.ACKSReceived (Peers.node w) !! Acks.msgSeq message)
      as [acks|] eqn:Hacks; [|done].
    simpl. by rewrite dom_insert_lookup_L.
  - unfold Acks.SendMoveToNodes. destruct move as [mv|]; [|done].
    by destruct (Acks.sendMessage _ _).
  - unfold Peers.SendGameStateToNode. by destruct (Acks.sendMessage _ _).
  - unfold Peers.SendMoveCommitToNodes. by destruct (Acks.sendMessage _ _).
  - unfold Peers.FloodNodes. by rewrite ledger_flood.
  - unfold Acks.ManageAcks_turn.
    destruct (Acks.MovesToSend (Peers.node w)) as [|m q]; [done|]. simpl.
    apply (ledger_ManageAcks_case (Acks.set_MovesToSend (λ _, q) (Peers.node w)) m).
  - destruct c; unfold Peers.ManageOtherNodes_turn.
    + destruct (Acks.MessagesToSend (Peers.node w)) as [|pm q]; [done|]. simpl.
      unfold Peers.ManageOtherNodes_send, Peers.sendMessageToNodes.
      rewrite broadcast_written.
      destruct (negb _); [|done].
      by destruct (Acks.OtherNodes _ !! _).
    + by destruct (Peers.NodesToAdd w).
    + by destruct (Acks.NodesToDelete (Peers.node w)).
Qed.

Lemma ledger_run (es : list Peers.event) w :
  dom (Acks.ACKSReceived (Peers.node (Peers.run es w).2))
  ⊆ dom (Acks.ACKSReceived (Peers.node w)).
Proof.
  revert w. induction es as [|e es IH]; intros w; simpl; [done|].
  pose proof (ledger_step e w) as Hstep.
  destruct (Peers.step e w) as [[err|] w'] eqn:He; simpl in *.
  - etrans; [apply IH|done].
  - done.
Qed.

(** X12.  No routine of the file adds a key to the ledger of acks: over
    any schedule of received messages, sends and turns of the two routines,
    the sequence numbers with a ledger entry are among those it started
    with.  On a node that starts with an empty ledger, as
    [CreateNodeCommInterface] makes it, the ledger therefore stays empty:
    every ack is answered with the unknown-sequence error and the quorum
    routine never applies or retries a pending move. *)
Theorem ledger_never_grows (es : list Peers.event) w :
  let n' := Peers.node (Peers.run es w).2 in
  dom (Acks.ACKSReceived n') ⊆ dom (Acks.ACKSReceived (Peers.node w))
  ∧ (Acks.ACKSReceived (Peers.node w) = ∅ →
     Acks.ACKSReceived n' = ∅
     ∧ (∀ addr seq, Acks.HandleReceivedAck n' addr seq
                    = (Return (Some (UnknownSequenceError seq)), n'))
     ∧ (∀ m, Acks.ManageAcks_case n' m = (Return None, n'))).
Proof.
  cbv zeta. pose proof (ledger_run es w) as Hsub. split; [exact Hsub|].
  intros Hempty. rewrite Hempty, dom_empty_L in Hsub.
  assert (He : Acks.ACKSReceived (Peers.node (Peers.run es w).2) = ∅).
  { apply dom_empty_iff_L. set_solver. }
  split; [exact He|]. split.
  - intros addr seq. unfold Acks.HandleReceivedAck. by rewrite He, lookup_empty.
  - intros m. unfold Acks.ManageAcks_case. by rewrite He, lookup_empty.
Qed.

End LedgerFacts.

(* ===================================================================== *)
(** ** Flooding the roster *)

Section FloodFacts.
Context `{Externals} `{Acks.Envelope} `{Peers.Transport}.
Implicit Types (w : Peers.World).

Lemma flood_queue (l : list (string * UDPConn)) w :
  let w' := foldl (λ w kv, Peers.InitiateConnection w kv.2) w l in
  ∃ msgs : list Acks.PendingMessage,
    Acks.MessagesToSend (Peers.node w')
    = Acks.MessagesToSend (Peers.node w) ++ msgs
    ∧ length msgs = length l
    ∧ Forall (λ pm, Acks.Recipient pm = "all"%string) msgs
    ∧ Acks.OtherNodes (Peers.node w') = Acks.OtherNodes (Peers.node w)
    ∧ Peers.Written w' = Peers.Written w.
Proof.
  cbv zeta. revert w. induction l as [|kv l IH]; intros w; simpl.
  - exists []. by rewrite app_nil_r.
  - destruct (IH (Peers.InitiateConnection w kv.2))
      as (msgs & Hq & Hlen & Hall & Hr & Hw).
    unfold Peers.InitiateConnection in *.
    destruct (Acks.sendMessage _ _) as [toSend log]. simpl in *.
    exists (Acks.mkPendingMessage "all" toSend :: msgs).
    rewrite Hq, Hr, Hw, <- app_assoc. simpl.
    split; [done|]. split; [by rewrite Hlen|]. split; [|done].
    by constructor.
Qed.

Lemma serve_broadcasts (msgs : list Acks.PendingMessage) (turns : nat) w :
  Acks.MessagesToSend (Peers.node w) = msgs →
  Forall (λ pm, Acks.Recipient pm = "all"%string) msgs →
  (length msgs ≤ turns)%nat →
  let w' := Peers.serve Peers.FromMessagesToSend turns w in
  Acks.MessagesToSend (Peers.node w') = []
  ∧ Acks.OtherNodes (Peers.node w') = Acks.OtherNodes (Peers.node w)
  ∧ length (Peers.Written w')
    = (length (Peers.Written w)
       + length msgs * size (Acks.OtherNodes (Peers.node w)))%nat.
Proof.
  cbv zeta. revert turns w.
  induction msgs as [|pm msgs IH]; intros turns w Hq Hall Hlen.
  - destruct turns as [|turns]; simpl; [by rewrite Hq; auto with lia|].
    unfold Peers.ManageOtherNodes_turn. rewrite Hq. auto with lia.
  - destruct turns as [|turns]; simpl in Hlen; [lia|]. simpl.
    unfold Peers.ManageOtherNodes_turn. rewrite Hq.
    inversion Hall as [|? ? Hpm Hall']; subst.
    unfold Peers.ManageOtherNodes_send, Peers.sendMessageToNodes.
    rewrite Hpm. simpl. rewrite broadcast_written.
    match goal with |- context [Peers.serve _ _ ?x] => set (w1 := x) end.
    destruct (IH turns w1) as (He & Hr & Hw); [done|done|lia|].
    rewrite He, Hr, Hw. subst w1. simpl.
    rewrite length_app, length_fmap, length_map_to_list. auto with lia.
Qed.

(** X13.  [FloodNodes] queues one ["connect"] message for ["all"] per
    roster entry.  On a node with nothing queued, once the roster routine
    has served them, every one of the k peers has been written to k times:
    k * k datagrams in all, with the roster unchanged and the queue empty
    again. *)
Theorem FloodNodes_writes_square w :
  Acks.MessagesToSend (Peers.node w) = [] →
  let k := size (Acks.OtherNodes (Peers.node w)) in
  let w1 := Peers.FloodNodes w in
  let w2 := Peers.serve Peers.FromMessagesToSend k w1 in
  length (Acks.MessagesToSend (Peers.node w1)) = k
  ∧ Forall (λ pm, Acks.Recipient pm = "all"%string)
      (Acks.MessagesToSend (Peers.node w1))
  ∧ Peers.Written w1 = Peers.Written w
  ∧ Acks.MessagesToSend (Peers.node w2) = []
  ∧ Acks.OtherNodes (Peers.node w2) = Acks.OtherNodes (Peers.node w)
  ∧ length (Peers.Written w2) = (length (Peers.Written w) + k * k)%nat.
Proof.
  intros Hq. cbv zeta. unfold Peers.FloodNodes.
  destruct (flood_queue (map_to_list (Acks.OtherNodes (Peers.node w))) w)
    as (msgs & Hmsgs & Hlen & Hall & Hr & Hw).
  rewrite Hq in Hmsgs. simpl in Hmsgs. rewrite length_map_to_list in Hlen.
  match goal with |- context [Peers.serve _ _ ?x] => set (w1 := x) in * end.
  destruct (serve_broadcasts msgs (size (Acks.OtherNodes (Peers.node w))) w1)
    as (He & Hr' & Hw'); [done|done|lia|].
  rewrite Hmsgs, Hw, He, Hr', Hw', Hr, Hw, Hlen. done.
Qed.

End FloodFacts.

(* ===================================================================== *)
(** ** The life of a commit, and moves of the prey *)

Section LifecycleFacts.
Context `{Externals} `{Lockstep.Envelope}.
Implicit Types (n : Lockstep.NodeCommInterface) (identifier : string).

(** X14.  Between two reveals an identifier can commit once.  After an
    authentic commit has been stored for an identifier, a second authentic
    commit for it is answered with nil and ignored, whatever its hash; after
    the lockstep handler has run for the identifier, whatever its result,
    the next authentic commit is stored. *)
Theorem commit_once_per_reveal n identifier (mc1 mc2 : MoveCommit)
    (move : option Coord) :
  CheckAuthenticityOfMoveCommit (Some mc1) = Some true →
  CheckAuthenticityOfMoveCommit (Some mc2) = Some true →
  Lockstep.MoveCommits n !! identifier = None →
  let n1 := (Lockstep.HandleReceivedMoveCommit n identifier (Some mc1)).2 in
  let n2 := (Lockstep.HandleReceivedMoveL n1 identifier move).2 in
  Lockstep.MoveCommits n1 !! identifier = Some (EncodeToString (MoveHash mc1))
  ∧ Lockstep.HandleReceivedMoveCommit n1 identifier (Some mc2) = (Return None, n1)
  ∧ Lockstep.MoveCommits
      (Lockstep.HandleReceivedMoveCommit n2 identifier (Some mc2)).2 !! identifier
    = Some (EncodeToString (MoveHash mc2)).
Proof.
  intros Hauth1 Hauth2 Hfresh. cbv zeta.
  assert (Hn1 : Lockstep.MoveCommits
                  (Lockstep.HandleReceivedMoveCommit n identifier (Some mc1)).2
                  !! identifier = Some (EncodeToString (MoveHash mc1))).
  { unfold Lockstep.HandleReceivedMoveCommit. rewrite Hauth1, Hfresh. simpl.
    apply lookup_insert_eq. }
  split; [exact Hn1|]. split.
  - unfold Lockstep.HandleReceivedMoveCommit at 1. by rewrite Hauth2, Hn1.
  - unfold Lockstep.HandleReceivedMoveCommit at 1. rewrite Hauth2.
    rewrite Lockstep_HandleReceivedMoveL_consumes, lookup_delete_eq. simpl.
    apply lookup_insert_eq.
Qed.

End LifecycleFacts.

Section PreyFacts.
Context `{Externals} `{Acks.Envelope} `{Peers.Transport}.

(** X15.  Moves of the prey are not acked.  Whatever a ["move"] message
    from ["prey"] carries and however its handling ends, the listener queues
    no message for anybody and leaves the log, the ledger and the pending
    moves alone, and the prey's commit is gone afterwards. *)
Theorem prey_moves_are_not_acked (w : Peers.World) (message : Acks.NodeMessage) :
  Acks.MessageType message = "move"%string →
  Acks.msgIdentifier message = "prey"%string →
  let n := Peers.node w in
  let n' := Peers.node (Peers.RunListener_switch w message).2 in
  Acks.MessagesToSend n' = Acks.MessagesToSend n
  ∧ Acks.Log n' = Acks.Log n
  ∧ Acks.ACKSReceived n' = Acks.ACKSReceived n
  ∧ Acks.MovesToSend n' = Acks.MovesToSend n
  ∧ Acks.MoveCommits n' !! "prey" = None.
Proof.
  intros Ht Hid. cbv zeta. unfold Peers.RunListener_switch.
  rewrite Ht, Hid. simpl. rewrite drop_error_state. simpl.
  unfold Acks.HandleReceivedMoveL, defer. simpl.
  destruct (Acks.Move message) as [mv|]; simpl.
  - destruct (Acks.CheckMoveCommitAgainstMove _ _ _); simpl.
    + destruct (Acks.CheckMoveIsValid _ _); simpl;
        by rewrite lookup_delete_eq.
    + by rewrite lookup_delete_eq.
  - by rewrite lookup_delete_eq.
Qed.

End PreyFacts.

Lemma commit_once_per_reveal_witness :
  let n := Sample.node in
  let n1 := (Lockstep.HandleReceivedMoveCommit n "7" (Some Sample.commit)).2 in
  CheckAuthenticityOfMoveCommit (Some Sample.commit) = Some true
  ∧ CheckAuthenticityOfMoveCommit (Some PeersSample.commit_1_23) = Some true
  ∧ Lockstep.MoveCommits n !! "7" = None
  ∧ Lockstep.HandleReceivedMoveCommit n1 "7" (Some PeersSample.commit_1_23)
    = (Return None, n1).
Proof.
  cbv zeta.
  assert (H1 : CheckAuthenticityOfMoveCommit (Some Sample.commit) = Some true)
    by (vm_compute; reflexivity).
  assert (H2 : CheckAuthenticityOfMoveCommit (Some PeersSample.commit_1_23)
               = Some true) by (vm_compute; reflexivity).
  assert (H3 : Lockstep.MoveCommits Sample.node !! "7" = None)
    by (vm_compute; reflexivity).
  split; [exact H1|]. split; [exact H2|]. split; [exact H3|].
  exact (proj1 (proj2 (commit_once_per_reveal Sample.node "7" Sample.commit
                         PeersSample.commit_1_23 None H1 H2 H3))).
Defined.

Lemma prey_moves_are_not_acked_witness :
  let message :=
    Acks.mkNodeMessage "prey" "move" None (Some (mkCoord 2 3)) 4 None Sample.peer in
  Acks.MessagesToSend
    (Peers.node (Peers.RunListener_switch PeersSample.world message).2)
  = Acks.MessagesToSend (Peers.node PeersSample.world).
Proof.
  cbv zeta.
  exact (proj1 (prey_moves_are_not_acked PeersSample.world
                  (Acks.mkNodeMessage "prey" "move" None (Some (mkCoord 2 3)) 4
                     None Sample.peer) eq_refl eq_refl)).
Defined.

(* ===================================================================== *)
(** ** The routines on the sample game *)

Lemma ManageAcks_evicts_keys_without_ack_witness :
  let n := Peers.node PeersSample.quorum_world in
  Acks.ACKSReceived n !! 1 = Some [Sample.peer; Sample.peer]
  ∧ (Acks.roster_size n < 2)%nat
  ∧ ∃ evicted,
      Acks.NodesToDelete (Acks.ManageAcks_case n Sample.pending).2
      = Acks.NodesToDelete n ++ evicted
      ∧ NoDup evicted.
Proof.
  cbv zeta.
  assert (Hacks : Acks.ACKSReceived (Peers.node PeersSample.quorum_world)
                    !! Acks.Seq Sample.pending
                  = Some [Sample.peer; Sample.peer]) by (vm_compute; reflexivity).
  assert (Hlt : (Acks.roster_size (Peers.node PeersSample.quorum_world)
                 < length [Sample.peer; Sample.peer])%nat) by (vm_compute; lia).
  split; [exact Hacks|]. split; [exact Hlt|].
  destruct (ManageAcks_evicts_keys_without_ack
              (Peers.node PeersSample.quorum_world) Sample.pending
              [Sample.peer; Sample.peer] (mkCoord 1 0) Hacks Hlt eq_refl)
    as (evicted & Hq & Hnd & _).
  exists evicted. split; [exact Hq|exact Hnd].
Defined.

Lemma sent_move_without_entry_is_dropped_witness :
  let n := Sample.fresh_node in
  let n1 := (Acks.SendMoveToNodes n (Some (mkCoord 1 0))).2 in
  Acks.MovesToSend n = []
  ∧ Acks.ACKSReceived n !! wrap_uint64 (Acks.sequenceNumber n + 1) = None
  ∧ Acks.ManageAcks_turn n1 = Some (Return None, Acks.set_MovesToSend (λ _, []) n1).
Proof.
  cbv zeta.
  assert (Hq : Acks.MovesToSend Sample.fresh_node = [])
    by (vm_compute; reflexivity).
  assert (Hnone : Acks.ACKSReceived Sample.fresh_node
                    !! wrap_uint64 (Acks.sequenceNumber Sample.fresh_node + 1)
                  = None) by (vm_compute; reflexivity).
  split; [exact Hq|]. split; [exact Hnone|].
  exact (proj1 (proj2 (proj2 (proj2 (sent_move_without_entry_is_dropped
                                       Sample.fresh_node (mkCoord 1 0) Hq Hnone))))).
Defined.

Lemma ManageOtherNodes_send_writes_witness :
  let w := PeersSample.world in
  let one := Acks.mkPendingMessage "2" [Byte.x01] in
  let gone := Acks.mkPendingMessage "9" [Byte.x01] in
  let every := Acks.mkPendingMessage "all" [Byte.x01] in
  Peers.Written (Peers.ManageOtherNodes_send w one) = [(Sample.peer, [Byte.x01])]
  ∧ Peers.ManageOtherNodes_send w gone = w
  ∧ length (Peers.Written (Peers.ManageOtherNodes_send w every)) = 1%nat.
Proof.
  cbv zeta. split; [|split].
  - apply (proj1 (proj2 (ManageOtherNodes_send_writes PeersSample.world
                           (Acks.mkPendingMessage "2" [Byte.x01])))).
    + discriminate.
    + vm_compute; reflexivity.
  - apply (proj1 (proj2 (proj2 (ManageOtherNodes_send_writes PeersSample.world
                                  (Acks.mkPendingMessage "9" [Byte.x01]))))).
    + discriminate.
    + vm_compute; reflexivity.
  - destruct (proj2 (proj2 (proj2 (ManageOtherNodes_send_writes
                 PeersSample.world (Acks.mkPendingMessage "all" [Byte.x01]))))
                eq_refl) as (_ & Hlen & _).
    rewrite Hlen. vm_compute; reflexivity.
Defined.

Lemma quorum_then_eviction_witness :
  let w := PeersSample.quorum_world in
  let n := Peers.node w in
  let w1 := (Peers.on_node (Acks.ManageAcks_case n Sample.pending) w).2 in
  let w2 := Peers.serve Peers.FromNodesToDelete (Acks.roster_size n) w1 in
  Acks.NodesToDelete n = []
  ∧ Acks.OtherNodes n !! "2" = Some Sample.peer
  ∧ Acks.OtherNodes (Peers.node w2) !! "2" = None.
Proof.
  cbv zeta.
  assert (Hq : Acks.NodesToDelete (Peers.node PeersSample.quorum_world) = [])
    by (vm_compute; reflexivity).
  assert (Hacks : Acks.ACKSReceived (Peers.node PeersSample.quorum_world)
                    !! Acks.Seq Sample.pending
                  = Some [Sample.peer; Sample.peer]) by (vm_compute; reflexivity).
  assert (Hlt : (Acks.roster_size (Peers.node PeersSample.quorum_world)
                 < length [Sample.peer; Sample.peer])%nat) by (vm_compute; lia).
  split; [exact Hq|]. split; [vm_compute; reflexivity|].
  rewrite (proj1 (quorum_then_eviction PeersSample.quorum_world Sample.pending
                    [Sample.peer; Sample.peer] (mkCoord 1 0)
                    Hq Hacks Hlt eq_refl) "2"%string).
  vm_compute; reflexivity.
Defined.

Lemma RunListener_switch_outcomes_witness :
  Peers.RunListener_switch PeersSample.world PeersSample.hello
  = (Return None, PeersSample.world)
  ∧ (Peers.RunListener_switch PeersSample.world
       (Acks.mkNodeMessage "prey" "move" None None 0 None Sample.peer)).1 = Panic.
Proof.
  split.
  - apply (proj1 (proj2 (RunListener_switch_outcomes
                           PeersSample.world PeersSample.hello))); discriminate.
  - apply (proj2 (proj2 (proj2 (proj2 (RunListener_switch_outcomes
             PeersSample.world
             (Acks.mkNodeMessage "prey" "move" None None 0 None Sample.peer))))));
      reflexivity.
Defined.

Lemma connect_registers_peer_witness :
  let w := PeersSample.world in
  let r := Peers.RunListener_switch w PeersSample.connect_from_3 in
  Peers.NodesToAdd w = []
  ∧ Peers.DialUDP "127.0.0.1:9003" = Some "127.0.0.1:9003"%string
  ∧ ∃ w2, Peers.ManageOtherNodes_turn Peers.FromNodesToAdd r.2 = Some w2
          ∧ Acks.OtherNodes (Peers.node w2)
            = <["3"%string := "127.0.0.1:9003"%string]>
                (Acks.OtherNodes (Peers.node w)).
Proof.
  cbv zeta. split; [reflexivity|].
  assert (Hdial : Peers.DialUDP (Acks.Addr PeersSample.connect_from_3)
                  = Some "127.0.0.1:9003"%string) by (vm_compute; reflexivity).
  split; [exact Hdial|].
  destruct (proj1 (connect_registers_peer PeersSample.world
                     PeersSample.connect_from_3 eq_refl eq_refl)
              "127.0.0.1:9003"%string Hdial)
    as (_ & w2 & Hturn & Hroster & _).
  exists w2. split; [exact Hturn|exact Hroster].
Defined.

Lemma move_is_acked_over_the_roster_witness :
  let w := PeersSample.world in
  let r := Peers.RunListener_switch w PeersSample.move_from_2 in
  Acks.MessagesToSend (Peers.node w) = []
  ∧ r.1 = Return None
  ∧ ∃ w2, Peers.ManageOtherNodes_turn Peers.FromMessagesToSend r.2 = Some w2
          ∧ Acks.locs (Peers.node w2)
            = <["2"%string := mkCoord 4 5]> (Acks.locs (Peers.node w)).
Proof.
  cbv zeta. split; [reflexivity|].
  destruct (move_is_acked_over_the_roster PeersSample.world
              PeersSample.move_from_2 (mkCoord 4 5))
    as (Hr & w2 & Hturn & _ & Hlocs & _);
    try reflexivity; try discriminate.
  split; [exact Hr|]. exists w2. split; [exact Hturn|exact Hlocs].
Defined.

Lemma ledger_never_grows_witness :
  let es := [Peers.CallSendMoveToNodes (Some (mkCoord 1 0));
             Peers.Received PeersSample.ack_from_2;
             Peers.TurnManageAcks] in
  Acks.ACKSReceived (Peers.node PeersSample.fresh_world) = ∅
  ∧ Acks.ACKSReceived (Peers.node (Peers.run es PeersSample.fresh_world).2) = ∅.
Proof.
  cbv zeta.
  assert (He : Acks.ACKSReceived (Peers.node PeersSample.fresh_world) = ∅)
    by reflexivity.
  split; [exact He|].
  exact (proj1 (proj2 (ledger_never_grows
                         [Peers.CallSendMoveToNodes (Some (mkCoord 1 0));
                          Peers.Received PeersSample.ack_from_2;
                          Peers.TurnManageAcks] PeersSample.fresh_world) He)).
Defined.

Lemma FloodNodes_writes_square_witness :
  let w := PeersSample.world in
  let w2 := Peers.serve Peers.FromMessagesToSend 1 (Peers.FloodNodes w) in
  Acks.MessagesToSend (Peers.node w) = []
  ∧ length (Peers.Written w2) = 1%nat.
Proof.
  cbv zeta. split; [reflexivity|].
  exact (proj2 (proj2 (proj2 (proj2 (proj2 (FloodNodes_writes_square
                                               PeersSample.world eq_refl)))))).
Defined.

Lemma HandleCapturedPreyRequest_checks_witness :
  let n := Sample.node in
  Lockstep.CheckGotPrey n (mkCoord 9 9)
  = Some (InvalidPreyCaptureError (coord_text (mkCoord 9 9)))
  ∧ Lockstep.HandleCapturedPreyRequest n "1" (Some (mkCoord 9 9)) 1
    = (Return (Some (InvalidPreyCaptureError (coord_text (mkCoord 9 9)))), n).
Proof.
  cbv zeta.
  assert (Hprey : Lockstep.CheckGotPrey Sample.node (mkCoord 9 9)
                  = Some (InvalidPreyCaptureError (coord_text (mkCoord 9 9))))
    by (vm_compute; reflexivity).
  split; [exact Hprey|].
  exact (proj1 (HandleCapturedPreyRequest_checks Sample.node "1" (mkCoord 9 9) 1)
           _ Hprey).
Defined.

